(** * Deep Mine Empire: the economy engine and the minigame shell

    A shallow embedding of [src/components/Minigame.tsx]: the [Minigame]
    component (countdown, player, gas lines, collision test), the [App]
    component that has levels and the skill tree (its catalogs, its
    handlers, its minigame trigger and the conditions of its buttons), and,
    in [Module Barter], the purchase of the first version of [App], which
    pays with resources.  Drawing and markup are left out.

    Numbers.  A JavaScript [number] that the game uses as a real quantity
    (money, resource quantities, depth, experience, multipliers) is an exact
    rational [Q]; rounding of IEEE doubles is not modelled.  A [number] that
    the game only ever counts with (player level, skill points, skill levels,
    owned units, upgrade levels) is a [Z].  Equalities between rationals are
    stated with [==].

    React.  Every handler of [App] closes over the state of the render it was
    created in ([gameState]) and queues updater functions that React applies
    to the state current at that time ([prev]).  Each handler is therefore a
    function of both; [prev = gameState] is the ordinary case of one intent
    handled per render.  A handler that returns early queues nothing and the
    result is [prev]. *)

From Stdlib Require Import ZArith QArith Qround Qpower Qabs Qminmax Lia Lqa List
  String Bool.
From stdpp Require Import base option gmap strings pretty.
Import ListNotations.

Local Open Scope Q_scope.
Local Open Scope string_scope.

(** ** Game types *)

(** [interface Resource]; colour, icon and description are presentation only. *)
Record Resource := mkResource {
  r_id : string;
  r_name : string;
  r_value : Q;
  r_unlockDepth : Q
}.

Inductive EquipmentType := pickaxe | drill | automation.

(** [interface Equipment]; name and description are presentation only. *)
Record Equipment := mkEquipment {
  e_id : string;
  e_type : EquipmentType;
  e_power : Q;
  e_cost : Q;
  e_owned : Z
}.

(** [GameState['upgrades']], the multiplier bundle. *)
Record Upgrades := mkUpgrades {
  clickMultiplier : Q;
  autoMultiplier : Q;
  efficiencyBonus : Q;
  sellPriceMultiplier : Q;
  xpGainMultiplier : Q;
  rareResourceChance : Q
}.

Record MoneyUpgrade := mkMoneyUpgrade {
  u_id : string;
  u_cost : Q;
  u_effect : Upgrades -> Upgrades;
  u_level : Z
}.

(** [interface Skill]; [dependencies?] is an optional field. *)
Record Skill := mkSkill {
  s_id : string;
  s_description : string;
  s_maxLevel : Z;
  s_getEffect : Z -> string;
  s_getCost : Z -> Z;
  s_dependencies : option (list string)
}.

Record GameState := mkGameState {
  level : Z;
  xp : Q;
  xpToNextLevel : Q;
  skillPoints : Z;
  money : Q;
  coal : Q;
  iron : Q;
  gold : Q;
  diamond : Q;
  depth : Q;
  totalMined : Q;
  clickPower : Q;
  autoMineRate : Q;
  equipment : list Equipment;
  upgrades : Upgrades;
  moneyUpgrades : list MoneyUpgrade;
  skills : gmap string Z
}.

(** ** Catalogs *)

Definition RESOURCES : list Resource :=
  [ mkResource "coal" "Coal" 1 0;
    mkResource "iron" "Iron" 5 10;
    mkResource "gold" "Gold" 25 25;
    mkResource "diamond" "Diamond" 100 50 ].

Definition INITIAL_EQUIPMENT : list Equipment :=
  [ mkEquipment "basic_pickaxe" pickaxe 1 50 0;
    mkEquipment "steel_pickaxe" pickaxe 5 200 0;
    mkEquipment "auto_miner" automation 1 300 0;
    mkEquipment "auto_drill" automation 5 1500 0;
    mkEquipment "mega_miner" automation 25 7500 0;
    mkEquipment "drill" drill 10 1000 0;
    mkEquipment "mega_drill" drill 50 5000 0 ].

Definition INITIAL_MONEY_UPGRADES : list MoneyUpgrade :=
  [ mkMoneyUpgrade "click_power_1" 100
      (fun u => mkUpgrades (clickMultiplier u * (11#10)) (autoMultiplier u)
                  (efficiencyBonus u) (sellPriceMultiplier u)
                  (xpGainMultiplier u) (rareResourceChance u)) 0;
    mkMoneyUpgrade "auto_speed_1" 250
      (fun u => mkUpgrades (clickMultiplier u) (autoMultiplier u * (11#10))
                  (efficiencyBonus u) (sellPriceMultiplier u)
                  (xpGainMultiplier u) (rareResourceChance u)) 0;
    mkMoneyUpgrade "sell_bonus_1" 500
      (fun u => mkUpgrades (clickMultiplier u) (autoMultiplier u)
                  (efficiencyBonus u) (sellPriceMultiplier u * (21#20))
                  (xpGainMultiplier u) (rareResourceChance u)) 0 ].

Definition SKILL_TREE : list Skill :=
  [ mkSkill "click_power_boost" "Permanently increase click power."
      10 (fun level => "+" +:+ pretty (level * 5)%Z +:+ "% click power")
      (fun level => level + 1)%Z None;
    mkSkill "auto_mine_speed" "Permanently increase auto-mining speed."
      10 (fun level => "+" +:+ pretty (level * 5)%Z +:+ "% auto-mine speed")
      (fun level => level + 1)%Z None;
    mkSkill "xp_gain" "Permanently increase XP gain from all sources."
      5 (fun level => "+" +:+ pretty (level * 10)%Z +:+ "% XP gain")
      (fun level => level * 2 + 1)%Z
      (Some ["click_power_boost"; "auto_mine_speed"]);
    mkSkill "rare_resource_chance" "Chance to find rare resources."
      5 (fun level => "+" +:+ pretty level +:+ "% rare resource chance")
      (fun level => level * 2 + 2)%Z
      (Some ["auto_mine_speed"]);
    mkSkill "minigame_bonus" "Start minigame with a time bonus."
      3 (fun level => "+" +:+ pretty level +:+ "s minigame time")
      (fun level => level * 3 + 2)%Z
      (Some ["xp_gain"]) ].

(** The argument of [useState<GameState>] in [App]. *)
Definition initialState : GameState :=
  {| level := 1; xp := 0; xpToNextLevel := 100; skillPoints := 0;
     money := 0; coal := 0; iron := 0; gold := 0; diamond := 0;
     depth := 0; totalMined := 0; clickPower := 1; autoMineRate := 0;
     equipment := INITIAL_EQUIPMENT;
     upgrades := mkUpgrades 1 1 1 1 1 0;
     moneyUpgrades := INITIAL_MONEY_UPGRADES;
     skills := ∅ |}.

(** ** Small JavaScript idioms *)

(** [a < b] on numbers. *)
Definition Qltb (a b : Q) : bool := negb (Qle_bool b a).

(** [xs[xs.length - 1] || dflt]. *)
Definition lastOr {A} (xs : list A) (dflt : A) : A := List.last xs dflt.

(** [skills[id] || 0]. *)
Definition skillLevel (sk : gmap string Z) (id : string) : Z :=
  default 0%Z (sk !! id).

(** [state[id as keyof GameState] as number] for the identifier of a
    resource.  The handlers only index with identifiers taken from
    [RESOURCES]; any other key is outside the model and reads as 0. *)
Definition quantity (s : GameState) (id : string) : Q :=
  if String.eqb id "coal" then coal s
  else if String.eqb id "iron" then iron s
  else if String.eqb id "gold" then gold s
  else if String.eqb id "diamond" then diamond s
  else 0.

(** ** Current resource *)

Definition getCurrentResource (gameState : GameState) : Resource :=
  let availableResources :=
    List.filter (fun r => Qle_bool (r_unlockDepth r) (depth gameState)) RESOURCES in
  lastOr availableResources
    (List.hd (mkResource "undefined" "undefined" 0 0) RESOURCES).

(** ** XP and leveling *)

(** The [while (newXp >= newXpToNextLevel)] loop of [gainXp].  [fuel] bounds
    the number of iterations; the test comes first, so a loop that exits
    after [n] iterations returns with any [fuel >= n]. *)
Fixpoint levelUpLoop (fuel : nat) (newXp : Q) (newLevel : Z)
    (newXpToNextLevel : Q) (newSkillPoints : Z) : option (Q * Z * Q * Z) :=
  if Qle_bool newXpToNextLevel newXp then
    match fuel with
    | O => None
    | S fuel' =>
        levelUpLoop fuel' (newXp - newXpToNextLevel) (newLevel + 1)%Z
          (inject_Z (Qfloor (newXpToNextLevel * (3#2)))) (newSkillPoints + 1)%Z
    end
  else Some (newXp, newLevel, newXpToNextLevel, newSkillPoints).

Definition gainXp (fuel : nat) (gameState : GameState) (amount : Q)
    (prev : GameState) : option GameState :=
  let xpGained := amount * xpGainMultiplier (upgrades gameState) in
  match levelUpLoop fuel (xp prev + xpGained) (level prev)
          (xpToNextLevel prev) (skillPoints prev) with
  | None => None
  | Some (newXp, newLevel, newXpToNextLevel, newSkillPoints) =>
      Some {| level := newLevel; xp := newXp;
              xpToNextLevel := newXpToNextLevel;
              skillPoints := newSkillPoints;
              money := money prev; coal := coal prev; iron := iron prev;
              gold := gold prev; diamond := diamond prev;
              depth := depth prev; totalMined := totalMined prev;
              clickPower := clickPower prev;
              autoMineRate := autoMineRate prev;
              equipment := equipment prev; upgrades := upgrades prev;
              moneyUpgrades := moneyUpgrades prev; skills := skills prev |}
  end.

(** ** Mining *)

(** [{ ...prev, [id]: v }] for the identifier of a resource. *)
Definition setQuantity (prev : GameState) (id : string) (v : Q) : GameState :=
  {| level := level prev; xp := xp prev;
     xpToNextLevel := xpToNextLevel prev; skillPoints := skillPoints prev;
     money := money prev;
     coal := if String.eqb id "coal" then v else coal prev;
     iron := if String.eqb id "iron" then v else iron prev;
     gold := if String.eqb id "gold" then v else gold prev;
     diamond := if String.eqb id "diamond" then v else diamond prev;
     depth := depth prev; totalMined := totalMined prev;
     clickPower := clickPower prev; autoMineRate := autoMineRate prev;
     equipment := equipment prev; upgrades := upgrades prev;
     moneyUpgrades := moneyUpgrades prev; skills := skills prev |}.

(** [{ ...prev, totalMined: prev.totalMined + power, depth: prev.depth + step }]. *)
Definition addMined (prev : GameState) (power step : Q) : GameState :=
  {| level := level prev; xp := xp prev;
     xpToNextLevel := xpToNextLevel prev; skillPoints := skillPoints prev;
     money := money prev; coal := coal prev; iron := iron prev;
     gold := gold prev; diamond := diamond prev;
     depth := depth prev + step; totalMined := totalMined prev + power;
     clickPower := clickPower prev; autoMineRate := autoMineRate prev;
     equipment := equipment prev; upgrades := upgrades prev;
     moneyUpgrades := moneyUpgrades prev; skills := skills prev |}.

(** [mineResource]; [rnd] is the value drawn by [Math.random()].  The
    updater queued by [gainXp] runs before the one queued here. *)
Definition mineResource (fuel : nat) (gameState : GameState) (rnd : Q)
    (prev : GameState) : option GameState :=
  let resource := getCurrentResource gameState in
  let power0 := clickPower gameState * clickMultiplier (upgrades gameState) in
  let power :=
    if Qltb rnd (rareResourceChance (upgrades gameState) / 100)
    then power0 * 2 else power0 in
  match gainXp fuel gameState power prev with
  | None => None
  | Some prev' =>
      Some (addMined
              (setQuantity prev' (r_id resource)
                 (quantity prev' (r_id resource) + power))
              power (power * (1#10)))
  end.

(** The callback of the auto-mining interval.  The effect installs it only
    when [autoMineRate] is not 0. *)
Definition autoMineTick (fuel : nat) (gameState prev : GameState)
    : option GameState :=
  if Qeq_bool (autoMineRate gameState) 0 then Some prev
  else
    let resource := getCurrentResource gameState in
    let power := autoMineRate gameState * autoMultiplier (upgrades gameState) in
    match gainXp fuel gameState (power / 2) prev with
    | None => None
    | Some prev' =>
        Some (addMined
                (setQuantity prev' (r_id resource)
                   (quantity prev' (r_id resource) + power))
                power (power * (1#20)))
    end.

(** ** Selling *)

Definition addMoney (prev : GameState) (gained : Q) : GameState :=
  {| level := level prev; xp := xp prev;
     xpToNextLevel := xpToNextLevel prev; skillPoints := skillPoints prev;
     money := money prev + gained; coal := coal prev; iron := iron prev;
     gold := gold prev; diamond := diamond prev;
     depth := depth prev; totalMined := totalMined prev;
     clickPower := clickPower prev; autoMineRate := autoMineRate prev;
     equipment := equipment prev; upgrades := upgrades prev;
     moneyUpgrades := moneyUpgrades prev; skills := skills prev |}.

Definition sellResource (fuel : nat) (gameState : GameState)
    (resourceId : string) (amount : Q) (prev : GameState) : option GameState :=
  match List.find (fun r => String.eqb (r_id r) resourceId) RESOURCES with
  | None => Some prev
  | Some resource =>
      if Qltb (quantity gameState resourceId) amount then Some prev
      else
        let moneyGained :=
          amount * r_value resource * sellPriceMultiplier (upgrades gameState) in
        match gainXp fuel gameState (moneyGained / 10) prev with
        | None => None
        | Some prev' =>
            Some (addMoney
                    (setQuantity prev' resourceId
                       (quantity prev' resourceId - amount))
                    moneyGained)
        end
  end.

(** ** Equipment *)

Definition findEquipment (equipmentId : string) (l : list Equipment)
    : option Equipment :=
  List.find (fun e => String.eqb (e_id e) equipmentId) l.

(** [equipment.cost * Math.pow(1.5, equipment.owned)]. *)
Definition equipmentCost (e : Equipment) : Q :=
  e_cost e * Qpower (3#2) (e_owned e).

Definition addOwned (equipmentId : string) (e : Equipment) : Equipment :=
  if String.eqb (e_id e) equipmentId
  then mkEquipment (e_id e) (e_type e) (e_power e) (e_cost e) (e_owned e + 1)%Z
  else e.

Definition isClickGear (e : Equipment) : bool :=
  match e_type e with pickaxe | drill => true | automation => false end.

Definition isAutomation (e : Equipment) : bool :=
  match e_type e with automation => true | _ => false end.

(** [.reduce((sum, e) => sum + (e.power * e.owned), 0)]. *)
Definition sumPower (l : list Equipment) : Q :=
  List.fold_left (fun sum e => sum + e_power e * inject_Z (e_owned e)) l 0.

(** [buyEquipment] builds the next state from [gameState] alone and stores it
    with [setGameState(value)]. *)
Definition buyEquipment (gameState : GameState) (equipmentId : string)
    (prev : GameState) : GameState :=
  match findEquipment equipmentId (equipment gameState) with
  | None => prev
  | Some e =>
      let cost := equipmentCost e in
      if Qltb (money gameState) cost then prev
      else
        let updatedEquipment :=
          List.map (addOwned equipmentId) (equipment gameState) in
        let newClickPower :=
          1 + sumPower (List.filter isClickGear updatedEquipment) in
        let newAutoMineRate :=
          sumPower (List.filter isAutomation updatedEquipment) in
        {| level := level gameState; xp := xp gameState;
           xpToNextLevel := xpToNextLevel gameState;
           skillPoints := skillPoints gameState;
           money := money gameState - cost;
           coal := coal gameState; iron := iron gameState;
           gold := gold gameState; diamond := diamond gameState;
           depth := depth gameState; totalMined := totalMined gameState;
           clickPower := newClickPower; autoMineRate := newAutoMineRate;
           equipment := updatedEquipment; upgrades := upgrades gameState;
           moneyUpgrades := moneyUpgrades gameState;
           skills := skills gameState |}
  end.

(** ** Money upgrades *)

Definition addLevel (upgradeId : string) (u : MoneyUpgrade) : MoneyUpgrade :=
  if String.eqb (u_id u) upgradeId
  then mkMoneyUpgrade (u_id u) (u_cost u) (u_effect u) (u_level u + 1)%Z
  else u.

Definition buyMoneyUpgrade (gameState : GameState) (upgradeId : string)
    (prev : GameState) : GameState :=
  match List.find (fun u => String.eqb (u_id u) upgradeId)
          (moneyUpgrades gameState) with
  | None => prev
  | Some upgrade =>
      let cost := u_cost upgrade * Qpower 2 (u_level upgrade) in
      if Qltb (money gameState) cost then prev
      else
        {| level := level prev; xp := xp prev;
           xpToNextLevel := xpToNextLevel prev;
           skillPoints := skillPoints prev;
           money := money prev - cost;
           coal := coal prev; iron := iron prev;
           gold := gold prev; diamond := diamond prev;
           depth := depth prev; totalMined := totalMined prev;
           clickPower := clickPower prev; autoMineRate := autoMineRate prev;
           equipment := equipment prev;
           upgrades := u_effect upgrade (upgrades prev);
           moneyUpgrades := List.map (addLevel upgradeId) (moneyUpgrades prev);
           skills := skills prev |}
  end.

(** ** Skill tree *)

Definition findSkill (skillId : string) : option Skill :=
  List.find (fun s => String.eqb (s_id s) skillId) SKILL_TREE.

(** The [if / else if] chain under [// Apply skill effects]: [newUpgrades]
    starts as a copy of [prev.upgrades] and one field is overwritten from
    [newSkills[skillId]]. *)
Definition applySkillEffects (skillId : string) (newSkills : gmap string Z)
    (u : Upgrades) : Upgrades :=
  let l := inject_Z (skillLevel newSkills skillId) in
  if String.eqb skillId "click_power_boost" then
    mkUpgrades (1 + l * (1#20)) (autoMultiplier u) (efficiencyBonus u)
      (sellPriceMultiplier u) (xpGainMultiplier u) (rareResourceChance u)
  else if String.eqb skillId "auto_mine_speed" then
    mkUpgrades (clickMultiplier u) (1 + l * (1#20)) (efficiencyBonus u)
      (sellPriceMultiplier u) (xpGainMultiplier u) (rareResourceChance u)
  else if String.eqb skillId "xp_gain" then
    mkUpgrades (clickMultiplier u) (autoMultiplier u) (efficiencyBonus u)
      (sellPriceMultiplier u) (1 + l * (1#10)) (rareResourceChance u)
  else if String.eqb skillId "rare_resource_chance" then
    mkUpgrades (clickMultiplier u) (autoMultiplier u) (efficiencyBonus u)
      (sellPriceMultiplier u) (xpGainMultiplier u) l
  else u.

Definition spendSkillPoint (gameState : GameState) (skillId : string)
    (prev : GameState) : GameState :=
  match findSkill skillId with
  | None => prev
  | Some skill =>
      if (skillPoints gameState <=? 0)%Z then prev
      else
        let currentLevel := skillLevel (skills gameState) skillId in
        if (s_maxLevel skill <=? currentLevel)%Z then prev
        else
          let cost := s_getCost skill currentLevel in
          if (skillPoints gameState <? cost)%Z then prev
          else
            let newSkills := <[skillId := (currentLevel + 1)%Z]> (skills prev) in
            let newUpgrades :=
              applySkillEffects skillId newSkills (upgrades prev) in
            {| level := level prev; xp := xp prev;
               xpToNextLevel := xpToNextLevel prev;
               skillPoints := (skillPoints prev - cost)%Z;
               money := money prev;
               coal := coal prev; iron := iron prev;
               gold := gold prev; diamond := diamond prev;
               depth := depth prev; totalMined := totalMined prev;
               clickPower := clickPower prev;
               autoMineRate := autoMineRate prev;
               equipment := equipment prev; upgrades := newUpgrades;
               moneyUpgrades := moneyUpgrades prev; skills := newSkills |}
  end.

(** The gate the skill panel computes for each [skill] before it enables the
    button that calls [spendSkillPoint]. *)
Definition dependenciesMet (gameState : GameState) (skill : Skill) : bool :=
  match s_dependencies skill with
  | None => true
  | Some deps =>
      List.forallb (fun dep => (0 <? skillLevel (skills gameState) dep)%Z) deps
  end.

Definition canAffordSkill (gameState : GameState) (skill : Skill) : bool :=
  let lvl := skillLevel (skills gameState) (s_id skill) in
  let cost := s_getCost skill lvl in
  (cost <=? skillPoints gameState)%Z && (lvl <? s_maxLevel skill)%Z
  && dependenciesMet gameState skill.

(** A run of accepted purchases of one kind of equipment.  Between two
    purchases anything may happen to the state that leaves the equipment
    list alone (mining, selling, levelling); [costs] lists what each purchase
    took from [money], oldest first. *)
Inductive purchases (equipmentId : string)
    : GameState -> list Q -> GameState -> Prop :=
| purchases_none s : purchases equipmentId s [] s
| purchases_more s costs t u e :
    purchases equipmentId s costs t ->
    equipment u = equipment t ->
    findEquipment equipmentId (equipment u) = Some e ->
    Qltb (money u) (equipmentCost e) = false ->
    purchases equipmentId s
      (costs ++ [money u - money (buyEquipment u equipmentId u)])
      (buyEquipment u equipmentId u).

(** ** Minigame: trigger, countdown and result *)

Inductive MinigameResult := win | lose.

(** The two state cells of [App] beside [gameState] that the trigger uses. *)
Record Shell := mkShell {
  minigameOpen : bool;
  lastDepthForMinigame : Z
}.

Definition initialShell : Shell := mkShell false 0.

(** The effect under [// Check for minigame trigger], run for the state of
    one render.  The boolean tells whether [setMinigameOpen(true)] was
    called.  [%] is the truncating remainder. *)
Definition checkMinigameTrigger (gameState : GameState) (sh : Shell)
    : Shell * bool :=
  let fl := Qfloor (depth gameState) in
  if (lastDepthForMinigame sh <? fl)%Z then
    if (Z.rem fl 10 =? 0)%Z && Qltb 0 (depth gameState)
    then (mkShell true fl, true)
    else (mkShell (minigameOpen sh) fl, false)
  else (sh, false).

(** The effect run for successive renders, counting the calls of
    [setMinigameOpen(true)]. *)
Fixpoint runTrigger (renders : list GameState) (sh : Shell) : Shell * nat :=
  match renders with
  | [] => (sh, O)
  | g :: rest =>
      let '(sh1, fired) := checkMinigameTrigger g sh in
      let '(sh2, n) := runTrigger rest sh1 in
      (sh2, if fired then S n else n)
  end.

(** [handleMinigameClose], the part acting on [gameState]: the updater
    [{ ...prev, money: 0 }] on a loss, [gainXp(50)] on a win. *)
Definition handleMinigameClose (fuel : nat) (gameState : GameState)
    (result : MinigameResult) (prev : GameState) : option GameState :=
  match result with
  | lose =>
      Some {| level := level prev; xp := xp prev;
              xpToNextLevel := xpToNextLevel prev;
              skillPoints := skillPoints prev;
              money := 0;
              coal := coal prev; iron := iron prev;
              gold := gold prev; diamond := diamond prev;
              depth := depth prev; totalMined := totalMined prev;
              clickPower := clickPower prev;
              autoMineRate := autoMineRate prev;
              equipment := equipment prev; upgrades := upgrades prev;
              moneyUpgrades := moneyUpgrades prev; skills := skills prev |}
  | win => gainXp fuel gameState 50 prev
  end.

(** [handleMinigameClose], the part acting on the shell:
    [setMinigameOpen(false)]. *)
Definition closeMinigame (sh : Shell) : Shell :=
  mkShell false (lastDepthForMinigame sh).

(** The state cells of the [Minigame] component. *)
Record Minigame := mkMinigame {
  timeLeft : Z;
  result : option MinigameResult
}.

(** The props [App] passes besides the callback: [open] and [depth]. *)
Record MinigameProps := mkMinigameProps {
  p_open : bool;
  p_depth : Q
}.

Definition minigameProps (gameState : GameState) (sh : Shell) : MinigameProps :=
  mkMinigameProps (minigameOpen sh) (depth gameState).

(** The start of the effect that runs when [open] becomes true:
    [setTimeLeft(10); setResult(null)]. *)
Definition startMinigame (props : MinigameProps) (m : Minigame) : Minigame :=
  if p_open props then mkMinigame 10 None else m.

(** The callback of [timerInterval], once per second. *)
Definition timerTick (m : Minigame) : Minigame :=
  if (timeLeft m <=? 1)%Z then mkMinigame 0 (Some win)
  else mkMinigame (timeLeft m - 1) (result m).

(** The state after [n] seconds without a collision. *)
Definition countdown (n : nat) (m : Minigame) : Minigame :=
  Nat.iter n timerTick m.

(** ** Reachable states *)

(** One intent handled against the state of the current render.  The draw of
    [Math.random()] is not negative. *)
Inductive step : GameState -> GameState -> Prop :=
| step_mine fuel rnd s s' :
    0 <= rnd -> mineResource fuel s rnd s = Some s' -> step s s'
| step_autoMine fuel s s' :
    autoMineTick fuel s s = Some s' -> step s s'
| step_sell fuel resourceId amount s s' :
    sellResource fuel s resourceId amount s = Some s' -> step s s'
| step_buyEquipment equipmentId s :
    step s (buyEquipment s equipmentId s)
| step_buyMoneyUpgrade upgradeId s :
    step s (buyMoneyUpgrade s upgradeId s)
| step_spendSkillPoint skillId s :
    step s (spendSkillPoint s skillId s)
| step_minigameClose fuel res s s' :
    handleMinigameClose fuel s res s = Some s' -> step s s'.

Inductive reachable : GameState -> Prop :=
| reachable_initial : reachable initialState
| reachable_step s s' : reachable s -> step s s' -> reachable s'.

(** An upgrade whose effect keeps the two multipliers below positive. *)
Definition keepsSigns (u : MoneyUpgrade) : Prop :=
  forall b : Upgrades,
    0 < sellPriceMultiplier b -> 0 < xpGainMultiplier b ->
    0 < sellPriceMultiplier (u_effect u b) /\
    0 < xpGainMultiplier (u_effect u b).

Record wellFormed (s : GameState) : Prop := mkWellFormed {
  wf_threshold : 1 <= xpToNextLevel s;
  wf_xp : xp s < xpToNextLevel s;
  wf_sellPrice : 0 < sellPriceMultiplier (upgrades s);
  wf_xpGain : 0 < xpGainMultiplier (upgrades s);
  wf_skills : forall id, (0 <= skillLevel (skills s) id)%Z;
  wf_moneyUpgrades : List.Forall keepsSigns (moneyUpgrades s)
}.

(** ** States used in examples *)

(** The state after the first level-up: level 2 with one skill point. *)
Definition levelTwoState : GameState :=
  {| level := 2; xp := 0; xpToNextLevel := 150; skillPoints := 1;
     money := 0; coal := 0; iron := 0; gold := 0; diamond := 0;
     depth := 0; totalMined := 0; clickPower := 1; autoMineRate := 0;
     equipment := INITIAL_EQUIPMENT;
     upgrades := mkUpgrades 1 1 1 1 1 0;
     moneyUpgrades := INITIAL_MONEY_UPGRADES;
     skills := ∅ |}.

(** A player at level 19 who has spent none of the 18 skill points earned. *)
Definition eighteenPointsState : GameState :=
  {| level := 19; xp := 0; xpToNextLevel := 147169; skillPoints := 18;
     money := 0; coal := 0; iron := 0; gold := 0; diamond := 0;
     depth := 10; totalMined := 100; clickPower := 1; autoMineRate := 0;
     equipment := INITIAL_EQUIPMENT;
     upgrades := mkUpgrades 1 1 1 1 1 0;
     moneyUpgrades := INITIAL_MONEY_UPGRADES;
     skills := ∅ |}.

(** The same player after buying the chain of skills up to [minigame_bonus]
    at its maximum level 3. *)
Definition bonusState : GameState :=
  {| level := 19; xp := 0; xpToNextLevel := 147169; skillPoints := 0;
     money := 0; coal := 0; iron := 0; gold := 0; diamond := 0;
     depth := 10; totalMined := 100; clickPower := 1; autoMineRate := 0;
     equipment := INITIAL_EQUIPMENT;
     upgrades := mkUpgrades (21#20) (21#20) 1 1 (11#10) 0;
     moneyUpgrades := INITIAL_MONEY_UPGRADES;
     skills := <["minigame_bonus" := 3%Z]>
                 (<["xp_gain" := 1%Z]>
                    (<["auto_mine_speed" := 1%Z]>
                       (<["click_power_boost" := 1%Z]> ∅))) |}.

(** Intents handled one per render. *)
Definition spendAll (skillIds : list string) (s : GameState) : GameState :=
  List.fold_left (fun st skillId => spendSkillPoint st skillId st) skillIds s.

(** A player at depth 9.9 who owns one auto miner. *)
Definition nearTenState : GameState :=
  {| level := 1; xp := 0; xpToNextLevel := 100; skillPoints := 0;
     money := 0; coal := 0; iron := 0; gold := 0; diamond := 0;
     depth := 99#10; totalMined := 99; clickPower := 1; autoMineRate := 1;
     equipment := List.map (addOwned "auto_miner") INITIAL_EQUIPMENT;
     upgrades := mkUpgrades 1 1 1 1 1 0;
     moneyUpgrades := INITIAL_MONEY_UPGRADES;
     skills := ∅ |}.

(** A player with 125 coins and no equipment. *)
Definition richState : GameState :=
  {| level := 1; xp := 0; xpToNextLevel := 100; skillPoints := 0;
     money := 125; coal := 0; iron := 0; gold := 0; diamond := 0;
     depth := 0; totalMined := 0; clickPower := 1; autoMineRate := 0;
     equipment := INITIAL_EQUIPMENT;
     upgrades := mkUpgrades 1 1 1 1 1 0;
     moneyUpgrades := INITIAL_MONEY_UPGRADES;
     skills := ∅ |}.

(** ** Total value and the Sell All button *)

(** [getTotalValue]: the value of the four stocks, with the unit values
    written out in the source as 1, 5, 25 and 100. *)
Definition getTotalValue (gameState : GameState) : Q :=
  coal gameState + iron gameState * 5 + gold gameState * 25
  + diamond gameState * 100.



(** ** Minigame: the canvas loop *)

(** [<canvas width="400" height="500">]. *)
Definition canvasWidth : Q := 400.
Definition canvasHeight : Q := 500.

Record Player := mkPlayer {
  pl_x : Q;
  pl_y : Q;
  pl_width : Q;
  pl_height : Q
}.

Record GasLine := mkGasLine {
  g_x : Q;
  g_y : Q;
  g_width : Q;
  g_height : Q;
  g_speed : Q
}.

(** [{ x: canvas.width / 2, y: canvas.height - 30, width: 20, height: 20 }]. *)
Definition initialPlayer : Player :=
  mkPlayer (canvasWidth / 2) (canvasHeight - 30) 20 20.

(** [const gameSpeed = 1 + depth / 50]. *)
Definition gameSpeed (d : Q) : Q := 1 + d / 50.

(** [updateGasLines]: every line falls by [speed * gameSpeed], then the lines
    at or below the bottom edge are dropped. *)
Definition updateGasLines (speedFactor : Q) (gasLines : list GasLine)
    : list GasLine :=
  List.filter (fun line => Qltb (g_y line) canvasHeight)
    (List.map
       (fun line =>
          mkGasLine (g_x line) (g_y line + g_speed line * speedFactor)
            (g_width line) (g_height line) (g_speed line))
       gasLines).

(** The test inside the loop of [detectCollision]. *)
Definition overlaps (player : Player) (line : GasLine) : bool :=
  Qltb (pl_x player) (g_x line + g_width line)
  && Qltb (g_x line) (pl_x player + pl_width player)
  && Qltb (pl_y player) (g_y line + g_height line)
  && Qltb (g_y line) (pl_y player + pl_height player).


(** The callback of [spawnInterval]; [r1], [r2], [r3] are its three draws of
    [Math.random()], in order.  The new line is pushed at the end. *)
Definition spawnGasLine (r1 r2 r3 : Q) : GasLine :=
  let width := r1 * 100 + 50 in
  let x := r2 * (canvasWidth - width) in
  let speed := r3 * 2 + 1 in
  mkGasLine x (-20) width 10 speed.

Definition spawn (r1 r2 r3 : Q) (gasLines : list GasLine) : list GasLine :=
  (gasLines ++ [spawnGasLine r1 r2 r3])%list.

(** [handleKeyDown]: the arrow keys move the player by 10, kept on the
    canvas; any other key does nothing. *)
Definition handleKeyDown (key : string) (player : Player) : Player :=
  if String.eqb key "ArrowLeft" then
    mkPlayer (Qmax 0 (pl_x player - 10)) (pl_y player)
      (pl_width player) (pl_height player)
  else if String.eqb key "ArrowRight" then
    mkPlayer (Qmin (canvasWidth - pl_width player) (pl_x player + 10))
      (pl_y player) (pl_width player) (pl_height player)
  else player.




(** ** The first version of the game: resources as currency *)

(** The third part of the source file is the [App] component before money,
    levels and the minigame were added: equipment is paid for with the
    resources themselves, the most valuable first. *)
Module Barter.

Record Upgrades := mkUpgrades {
  clickMultiplier : Q;
  autoMultiplier : Q;
  efficiencyBonus : Q
}.

Record GameState := mkGameState {
  coal : Q;
  iron : Q;
  gold : Q;
  diamond : Q;
  depth : Q;
  totalMined : Q;
  clickPower : Q;
  autoMineRate : Q;
  equipment : list Equipment;
  upgrades : Upgrades
}.

Definition INITIAL_EQUIPMENT : list Equipment :=
  [ mkEquipment "basic_pickaxe" pickaxe 2 50 0;
    mkEquipment "steel_pickaxe" pickaxe 5 200 0;
    mkEquipment "auto_miner" automation 1 300 0;
    mkEquipment "drill" drill 10 1000 0;
    mkEquipment "mega_drill" drill 50 5000 0 ].

Definition initialState : GameState :=
  {| coal := 0; iron := 0; gold := 0; diamond := 0;
     depth := 0; totalMined := 0; clickPower := 1; autoMineRate := 0;
     equipment := INITIAL_EQUIPMENT;
     upgrades := mkUpgrades 1 1 1 |}.

Definition getTotalValue (gameState : GameState) : Q :=
  coal gameState + iron gameState * 5 + gold gameState * 25
  + diamond gameState * 100.

(** [buyEquipment]: the cost is taken from the diamonds first, then gold,
    then iron, and what remains from the coal. *)
Definition buyEquipment (gameState : GameState) (equipmentId : string)
    (prev : GameState) : GameState :=
  match findEquipment equipmentId (equipment gameState) with
  | None => prev
  | Some e =>
      let totalResources :=
        coal gameState + iron gameState * 5 + gold gameState * 25
        + diamond gameState * 100 in
      let cost := equipmentCost e in
      if Qltb totalResources cost then prev
      else
        let remainingCost0 := cost in
        let diamondCost := Qmin (remainingCost0 / 100) (diamond gameState) in
        let newDiamond := diamond gameState - diamondCost in
        let remainingCost1 := remainingCost0 - diamondCost * 100 in
        let goldCost := Qmin (remainingCost1 / 25) (gold gameState) in
        let newGold := gold gameState - goldCost in
        let remainingCost2 := remainingCost1 - goldCost * 25 in
        let ironCost := Qmin (remainingCost2 / 5) (iron gameState) in
        let newIron := iron gameState - ironCost in
        let remainingCost3 := remainingCost2 - ironCost * 5 in
        let newCoal := coal gameState - remainingCost3 in
        let updatedEquipment :=
          List.map (addOwned equipmentId) (equipment gameState) in
        let newClickPower :=
          1 + sumPower (List.filter isClickGear updatedEquipment) in
        let newAutoMineRate :=
          sumPower (List.filter isAutomation updatedEquipment) in
        {| coal := newCoal; iron := newIron; gold := newGold;
           diamond := newDiamond;
           depth := depth gameState; totalMined := totalMined gameState;
           clickPower := newClickPower; autoMineRate := newAutoMineRate;
           equipment := updatedEquipment; upgrades := upgrades gameState |}
  end.

(** A miner holding 3 diamonds, 4 gold, 10 iron and 20 coal. *)
Definition stockedState : GameState :=
  {| coal := 20; iron := 10; gold := 4; diamond := 3;
     depth := 60; totalMined := 600; clickPower := 1; autoMineRate := 0;
     equipment := INITIAL_EQUIPMENT;
     upgrades := mkUpgrades 1 1 1 |}.

End Barter.

(** A player at depth 12 holding 40 coal and 12 iron, with 100 coins. *)
Definition stockedState : GameState :=
  {| level := 1; xp := 52; xpToNextLevel := 100; skillPoints := 0;
     money := 100; coal := 40; iron := 12; gold := 0; diamond := 0;
     depth := 12; totalMined := 120; clickPower := 1; autoMineRate := 0;
     equipment := INITIAL_EQUIPMENT;
     upgrades := mkUpgrades 1 1 1 1 1 0;
     moneyUpgrades := INITIAL_MONEY_UPGRADES;
     skills := ∅ |}.

(** ** The shop buttons *)

(** [canAfford] of the equipment shop: [gameState.money >= cost] with
    [cost = equipment.cost * Math.pow(1.5, equipment.owned)]; the Buy button
    is disabled when it is false. *)
Definition canAffordEquipment (gameState : GameState) (e : Equipment) : bool :=
  Qle_bool (equipmentCost e) (money gameState).

(** [canAfford] of the upgrade shop: [gameState.money >= cost] with
    [cost = upgrade.cost * Math.pow(2, upgrade.level)]. *)
Definition canAffordUpgrade (gameState : GameState) (u : MoneyUpgrade) : bool :=
  Qle_bool (u_cost u * Qpower 2 (u_level u)) (money gameState).

(** ** Invariants stated in the properties *)

(** The equipment list is the catalog with counts that are not negative. *)
Definition catalogWithCounts (l : list Equipment) : Prop :=
  List.Forall2
    (fun e c =>
       e = mkEquipment (e_id c) (e_type c) (e_power c) (e_cost c) (e_owned e)
       /\ (0 <= e_owned e)%Z)
    l INITIAL_EQUIPMENT.

(** [clickPower] and [autoMineRate] are what [buyEquipment] would compute
    from the equipment list. *)
Definition statsDerived (s : GameState) : Prop :=
  clickPower s == 1 + sumPower (List.filter isClickGear (equipment s)) /\
  autoMineRate s == sumPower (List.filter isAutomation (equipment s)).


(** A player at level 2 with one skill point and 100 coins. *)
Definition fundedState : GameState :=
  {| level := 2; xp := 0; xpToNextLevel := 150; skillPoints := 1;
     money := 100; coal := 0; iron := 0; gold := 0; diamond := 0;
     depth := 10; totalMined := 100; clickPower := 1; autoMineRate := 0;
     equipment := INITIAL_EQUIPMENT;
     upgrades := mkUpgrades 1 1 1 1 1 0;
     moneyUpgrades := INITIAL_MONEY_UPGRADES;
     skills := ∅ |}.

(** * Properties *)

(** ** Comparisons *)

Lemma Qltb_lt (a b : Q) : Qltb a b = true <-> a < b.
Proof.
  unfold Qltb. rewrite negb_true_iff, <- not_true_iff_false, Qle_bool_iff.
  split; [apply Qnot_le_lt | apply Qlt_not_le].
Qed.

Lemma Qltb_ge (a b : Q) : Qltb a b = false <-> b <= a.
Proof.
  unfold Qltb. rewrite negb_false_iff. apply Qle_bool_iff.
Qed.

Lemma Qle_bool_gt (a b : Q) : Qle_bool a b = false <-> b < a.
Proof.
  rewrite <- not_true_iff_false, Qle_bool_iff.
  split; [apply Qnot_le_lt | apply Qlt_not_le].
Qed.

(** ** Current resource *)

Lemma available_resources (s : GameState) :
  List.filter (fun r => Qle_bool (r_unlockDepth r) (depth s)) RESOURCES =
  ((if Qle_bool 0 (depth s) then [mkResource "coal" "Coal" 1 0] else []) ++
   (if Qle_bool 10 (depth s) then [mkResource "iron" "Iron" 5 10] else []) ++
   (if Qle_bool 25 (depth s) then [mkResource "gold" "Gold" 25 25] else []) ++
   (if Qle_bool 50 (depth s) then [mkResource "diamond" "Diamond" 100 50]
    else []))%list.
Proof.
  unfold RESOURCES. cbn [List.filter r_unlockDepth].
  destruct (Qle_bool 0 (depth s)), (Qle_bool 10 (depth s)),
    (Qle_bool 25 (depth s)), (Qle_bool 50 (depth s)); reflexivity.
Qed.

(** C5.  For a depth [d >= 0], [getCurrentResource] returns an entry of the
    catalog that is unlocked at [d], no unlocked entry has a larger unlock
    depth, it is the only entry with these two properties, and at depth 0
    it is coal. *)
Theorem getCurrentResource_largest_unlocked (s : GameState) :
  0 <= depth s ->
  let r := getCurrentResource s in
  In r RESOURCES /\
  r_unlockDepth r <= depth s /\
  (forall r', In r' RESOURCES -> r_unlockDepth r' <= depth s ->
              r_unlockDepth r' <= r_unlockDepth r) /\
  (forall r', In r' RESOURCES -> r_unlockDepth r' <= depth s ->
              (forall r'', In r'' RESOURCES -> r_unlockDepth r'' <= depth s ->
                           r_unlockDepth r'' <= r_unlockDepth r') ->
              r' = r) /\
  (depth s == 0 -> r_id r = "coal").
Proof.
  intros Hd r. subst r. unfold getCurrentResource.
  rewrite available_resources.
  destruct (Qle_bool 0 (depth s)) eqn:H0;
    [apply Qle_bool_iff in H0 | apply Qle_bool_gt in H0; lra].
  destruct (Qle_bool 10 (depth s)) eqn:H10;
    [apply Qle_bool_iff in H10 | apply Qle_bool_gt in H10];
  (destruct (Qle_bool 25 (depth s)) eqn:H25;
    [apply Qle_bool_iff in H25 | apply Qle_bool_gt in H25]);
  (destruct (Qle_bool 50 (depth s)) eqn:H50;
    [apply Qle_bool_iff in H50 | apply Qle_bool_gt in H50]);
  try lra; cbn [app lastOr List.last List.hd r_unlockDepth r_id];
  unfold RESOURCES;
  (split; [cbn; tauto |]);
  (split; [lra |]);
  (split; [intros r' [<- | [<- | [<- | [<- | []]]]] Hr'; cbn in *; lra |]);
  (split; [| intros; (reflexivity || lra)]);
  intros r' [<- | [<- | [<- | [<- | []]]]] Hr' Hmax; try reflexivity;
  exfalso.
  all: cbn in Hr'; try lra.
  all: first
    [ pose proof (Hmax (mkResource "diamond" "Diamond" 100 50)
                    ltac:(cbn; tauto) ltac:(cbn; lra)) as Hbig;
      cbn in Hbig; lra
    | pose proof (Hmax (mkResource "gold" "Gold" 25 25)
                    ltac:(cbn; tauto) ltac:(cbn; lra)) as Hbig;
      cbn in Hbig; lra
    | pose proof (Hmax (mkResource "iron" "Iron" 5 10)
                    ltac:(cbn; tauto) ltac:(cbn; lra)) as Hbig;
      cbn in Hbig; lra ].
Qed.

Lemma getCurrentResource_largest_unlocked_witness :
  0 <= depth initialState /\
  r_id (getCurrentResource initialState) = "coal".
Proof.
  assert (H : 0 <= depth initialState) by (cbn; lra).
  split; [exact H |].
  apply (getCurrentResource_largest_unlocked initialState H).
  reflexivity.
Defined.

(** ** XP and leveling *)

Lemma levelUpLoop_exit fuel x l thr sp :
  x < thr -> levelUpLoop fuel x l thr sp = Some (x, l, thr, sp).
Proof.
  intros H. apply Qle_bool_gt in H. destruct fuel; cbn; rewrite H; reflexivity.
Qed.

Lemma levelUpLoop_step fuel x l thr sp :
  thr <= x ->
  levelUpLoop (S fuel) x l thr sp =
  levelUpLoop fuel (x - thr) (l + 1)%Z
    (inject_Z (Qfloor (thr * (3#2)))) (sp + 1)%Z.
Proof.
  intros H. apply Qle_bool_iff in H. cbn. rewrite H. reflexivity.
Qed.

(** More fuel never changes a result. *)
Lemma levelUpLoop_fuel_mono fuel fuel' x l thr sp r :
  (fuel <= fuel')%nat ->
  levelUpLoop fuel x l thr sp = Some r ->
  levelUpLoop fuel' x l thr sp = Some r.
Proof.
  revert fuel' x l thr sp.
  induction fuel as [| fuel IH]; intros fuel' x l thr sp Hle Hrun.
  - cbn in Hrun. destruct (Qle_bool thr x) eqn:Hc; [discriminate |].
    destruct fuel'; cbn; rewrite Hc; exact Hrun.
  - destruct fuel' as [| fuel']; [lia |].
    cbn in *. destruct (Qle_bool thr x); [| exact Hrun].
    apply IH; [lia | exact Hrun].
Qed.

Lemma Qfloor_above (z : Z) (x : Q) : inject_Z z <= x -> (z <= Qfloor x)%Z.
Proof.
  intros H. rewrite <- (Qfloor_Z z). apply Qfloor_resp_le. exact H.
Qed.

Lemma next_threshold_ge_1 (thr : Q) :
  1 <= thr -> 1 <= inject_Z (Qfloor (thr * (3#2))).
Proof.
  intros H. change 1 with (inject_Z 1) at 1. rewrite <- Zle_Qle.
  apply Qfloor_above. change (inject_Z 1) with 1. lra.
Qed.

Lemma floor_drops (x y : Q) :
  y <= x - 1 -> (Qfloor y + 1 <= Qfloor x)%Z.
Proof.
  intros H. apply Qfloor_above. rewrite inject_Z_plus.
  pose proof (Qfloor_le y) as Hy. change (inject_Z 1) with 1. lra.
Qed.

(** The loop returns for every threshold of at least 1, however large the
    experience: [Qfloor x] iterations always suffice. *)
Lemma levelUpLoop_terminates fuel x l thr sp :
  1 <= thr -> (Z.to_nat (Qfloor x) <= fuel)%nat ->
  exists r, levelUpLoop fuel x l thr sp = Some r.
Proof.
  revert x l thr sp.
  induction fuel as [| fuel IH]; intros x l thr sp Hthr Hfuel.
  - destruct (Qlt_le_dec x thr) as [Hlt | Hge].
    + eexists. apply levelUpLoop_exit. exact Hlt.
    + exfalso.
      assert (H1 : (Qfloor 1 <= Qfloor x)%Z) by (apply Qfloor_resp_le; lra).
      change 1 with (inject_Z 1) in H1 at 1. rewrite Qfloor_Z in H1. lia.
  - destruct (Qlt_le_dec x thr) as [Hlt | Hge].
    + eexists. apply levelUpLoop_exit. exact Hlt.
    + rewrite levelUpLoop_step by exact Hge.
      apply IH; [apply next_threshold_ge_1; exact Hthr |].
      assert (H1 : (Qfloor (x - thr) + 1 <= Qfloor x)%Z)
        by (apply floor_drops; lra).
      lia.
Qed.

(** With a threshold of 0 the loop never returns: the guard
    [newXp >= newXpToNextLevel] stays true. *)
Lemma levelUpLoop_zero_threshold_diverges fuel l sp :
  levelUpLoop fuel 0 l 0 sp = None.
Proof.
  revert l sp. induction fuel as [| fuel IH]; intros l sp; [reflexivity |].
  cbn -[Qminus Qmult]. apply IH.
Qed.

Lemma levelUpLoop_one fuel x l thr sp :
  1 <= thr -> x == thr ->
  levelUpLoop (S fuel) x l thr sp =
  Some (x - thr, (l + 1)%Z, inject_Z (Qfloor (thr * (3#2))), (sp + 1)%Z).
Proof.
  intros Hthr Hx. rewrite levelUpLoop_step by lra.
  apply levelUpLoop_exit. pose proof (next_threshold_ge_1 thr Hthr). lra.
Qed.

Lemma levelUpLoop_two fuel x l thr sp :
  1 <= thr -> x == (5#2) * thr ->
  levelUpLoop (S (S fuel)) x l thr sp =
  Some (x - thr - inject_Z (Qfloor (thr * (3#2))), (l + 1 + 1)%Z,
        inject_Z (Qfloor (inject_Z (Qfloor (thr * (3#2))) * (3#2))),
        (sp + 1 + 1)%Z).
Proof.
  intros Hthr Hx.
  pose proof (next_threshold_ge_1 thr Hthr) as H1.
  pose proof (next_threshold_ge_1 _ H1) as H2.
  pose proof (Qfloor_le (thr * (3#2))) as Hlo.
  pose proof (Qlt_floor (thr * (3#2))) as Hhi.
  rewrite inject_Z_plus in Hhi. change (inject_Z 1) with 1 in Hhi.
  rewrite levelUpLoop_step by lra.
  rewrite levelUpLoop_step by lra.
  apply levelUpLoop_exit. lra.
Qed.

(** C3.  With experience 0, an experience-gain multiplier of 1 and a
    threshold of at least 1 (as in every reachable state, see
    [reachable_wellFormed]): a grant equal to the threshold returns with
    exactly one level-up, one more skill point and the threshold
    [floor (old * 1.5)]; a grant of 2.5 times the threshold returns, from the
    same single call, with at least two level-ups.  One, respectively two,
    loop iterations are enough. *)
Theorem gainXp_level_up_loop (gameState prev : GameState) :
  xpGainMultiplier (upgrades gameState) == 1 ->
  xp prev == 0 ->
  1 <= xpToNextLevel prev ->
  (exists s1,
      (forall fuel, (1 <= fuel)%nat ->
         gainXp fuel gameState (xpToNextLevel prev) prev = Some s1) /\
      level s1 = (level prev + 1)%Z /\
      skillPoints s1 = (skillPoints prev + 1)%Z /\
      xpToNextLevel s1 = inject_Z (Qfloor (xpToNextLevel prev * (3#2)))) /\
  (exists s2,
      (forall fuel, (2 <= fuel)%nat ->
         gainXp fuel gameState ((5#2) * xpToNextLevel prev) prev = Some s2) /\
      (level prev + 2 <= level s2)%Z).
Proof.
  intros Hm Hx Hthr. split.
  - eexists. split.
    + intros fuel Hfuel. destruct fuel as [| fuel]; [lia |].
      unfold gainXp. rewrite levelUpLoop_one; [reflexivity | exact Hthr |].
      rewrite Hm, Hx. ring.
    + cbn. auto.
  - eexists. split.
    + intros fuel Hfuel. destruct fuel as [| [| fuel]]; [lia | lia |].
      unfold gainXp. rewrite levelUpLoop_two; [reflexivity | exact Hthr |].
      rewrite Hm, Hx. ring.
    + cbn. lia.
Qed.

Lemma gainXp_level_up_loop_witness :
  xpGainMultiplier (upgrades initialState) == 1 /\
  xp initialState == 0 /\
  1 <= xpToNextLevel initialState /\
  (exists s1,
      (forall fuel, (1 <= fuel)%nat ->
         gainXp fuel initialState 100 initialState = Some s1) /\
      level s1 = 2%Z /\ skillPoints s1 = 1%Z /\ xpToNextLevel s1 = 150).
Proof.
  assert (Hm : xpGainMultiplier (upgrades initialState) == 1) by reflexivity.
  assert (Hx : xp initialState == 0) by reflexivity.
  assert (Ht : 1 <= xpToNextLevel initialState) by (cbn; lra).
  split; [exact Hm |]. split; [exact Hx |]. split; [exact Ht |].
  exact (proj1 (gainXp_level_up_loop initialState initialState Hm Hx Ht)).
Defined.

(** [gainXp] leaves the experience below the threshold, and only ever raises
    a threshold that is at least 1. *)
Lemma levelUpLoop_post fuel x l thr sp x' l' thr' sp' :
  1 <= thr ->
  levelUpLoop fuel x l thr sp = Some (x', l', thr', sp') ->
  x' < thr' /\ 1 <= thr' /\ (l <= l')%Z /\ (sp' - sp = l' - l)%Z.
Proof.
  revert x l thr sp.
  induction fuel as [| fuel IH]; intros x l thr sp Hthr Hrun; cbn in Hrun.
  - destruct (Qle_bool thr x) eqn:Hc; [discriminate |].
    apply Qle_bool_gt in Hc. injection Hrun as <- <- <- <-.
    repeat split; try lia; assumption.
  - destruct (Qle_bool thr x) eqn:Hc.
    + apply IH in Hrun; [| apply next_threshold_ge_1; exact Hthr].
      destruct Hrun as (H1 & H2 & H3 & H4). repeat split; try lia; assumption.
    + apply Qle_bool_gt in Hc. injection Hrun as <- <- <- <-.
      repeat split; try lia; assumption.
Qed.

(** ** Mining *)

(** C8.  From the initial state one call of [mineResource] without a rare
    find (the chance is 0, so no draw of [Math.random()] is below it) adds 1
    to coal, makes [totalMined] 1 and the depth 0.1, and adds 1 to the
    experience; no iteration of the level-up loop is needed. *)
Theorem mineResource_initial (fuel : nat) (rnd : Q) :
  0 <= rnd ->
  exists s',
    mineResource fuel initialState rnd initialState = Some s' /\
    coal s' == coal initialState + 1 /\
    totalMined s' == 1 /\
    depth s' == 1#10 /\
    xp s' == xp initialState + 1 /\
    level s' = 1%Z /\ money s' == 0 /\
    iron s' == 0 /\ gold s' == 0 /\ diamond s' == 0.
Proof.
  intros Hrnd.
  assert (Hrare :
    Qltb rnd (rareResourceChance (upgrades initialState) / 100) = false).
  { apply Qltb_ge. cbn. unfold Qdiv. lra. }
  unfold mineResource. rewrite Hrare.
  destruct fuel; eexists; (split; [vm_compute; reflexivity |]);
    repeat split; reflexivity.
Qed.

Lemma mineResource_initial_witness :
  0 <= 1#2 /\
  exists s', mineResource 0 initialState (1#2) initialState = Some s' /\
             coal s' == 1 /\ depth s' == 1#10.
Proof.
  assert (H : 0 <= 1#2) by lra.
  split; [exact H |].
  destruct (mineResource_initial 0 (1#2) H) as (s' & Hs & Hc & _ & Hd & _).
  exists s'. repeat split; assumption.
Defined.

(** ** Minigame result *)

(** C6.  Losing the minigame sets [money] to 0 and leaves every other field
    of the state as it was. *)
Theorem handleMinigameClose_lose (fuel : nat) (gameState prev : GameState) :
  exists s',
    handleMinigameClose fuel gameState lose prev = Some s' /\
    money s' = 0 /\
    coal s' = coal prev /\ iron s' = iron prev /\
    gold s' = gold prev /\ diamond s' = diamond prev /\
    depth s' = depth prev /\ totalMined s' = totalMined prev /\
    equipment s' = equipment prev /\
    clickPower s' = clickPower prev /\ autoMineRate s' = autoMineRate prev /\
    skills s' = skills prev /\
    level s' = level prev /\ xp s' = xp prev /\
    xpToNextLevel s' = xpToNextLevel prev /\
    skillPoints s' = skillPoints prev /\
    upgrades s' = upgrades prev /\
    moneyUpgrades s' = moneyUpgrades prev.
Proof.
  eexists. split; [reflexivity |]. cbn. repeat split.
Qed.

(** ** Skill tree *)

Lemma skillLevel_insert (sk : gmap string Z) (id : string) (v : Z) :
  skillLevel (<[id := v]> sk) id = v.
Proof. unfold skillLevel. rewrite lookup_insert_eq. reflexivity. Qed.

(** The guards of [spendSkillPoint], read off the early returns. *)
Lemma spendSkillPoint_cases (gameState prev : GameState) (skillId : string) :
  spendSkillPoint gameState skillId prev = prev \/
  exists skill,
    findSkill skillId = Some skill /\
    (0 < skillPoints gameState)%Z /\
    (skillLevel (skills gameState) skillId < s_maxLevel skill)%Z /\
    (s_getCost skill (skillLevel (skills gameState) skillId)
       <= skillPoints gameState)%Z /\
    skills (spendSkillPoint gameState skillId prev) =
      <[skillId := (skillLevel (skills gameState) skillId + 1)%Z]> (skills prev) /\
    upgrades (spendSkillPoint gameState skillId prev) =
      applySkillEffects skillId
        (skills (spendSkillPoint gameState skillId prev)) (upgrades prev) /\
    skillPoints (spendSkillPoint gameState skillId prev) =
      (skillPoints prev
       - s_getCost skill (skillLevel (skills gameState) skillId))%Z.
Proof.
  unfold spendSkillPoint.
  destruct (findSkill skillId) as [skill |]; [| left; reflexivity].
  destruct (Z.leb_spec (skillPoints gameState) 0); [left; reflexivity |].
  destruct (Z.leb_spec (s_maxLevel skill)
              (skillLevel (skills gameState) skillId)); [left; reflexivity |].
  destruct (Z.ltb_spec (skillPoints gameState)
              (s_getCost skill (skillLevel (skills gameState) skillId)));
    [left; reflexivity |].
  right. exists skill. cbn. repeat split; assumption.
Qed.

(** The engine accepts exactly when the skill exists, a point is left, the
    skill is below its maximum and the cost is covered; the prerequisites do
    not occur among the guards. *)
Lemma spendSkillPoint_accepts (s : GameState) (skillId : string) :
  spendSkillPoint s skillId s <> s <->
  exists skill,
    findSkill skillId = Some skill /\
    (0 < skillPoints s)%Z /\
    (skillLevel (skills s) skillId < s_maxLevel skill)%Z /\
    (s_getCost skill (skillLevel (skills s) skillId) <= skillPoints s)%Z.
Proof.
  split.
  - intros Hne.
    destruct (spendSkillPoint_cases s s skillId)
      as [Heq | (skill & Hf & H1 & H2 & H3 & _)]; [contradiction |].
    exists skill. auto.
  - intros (skill & Hf & H1 & H2 & H3) Heq.
    assert (Hl : skillLevel (skills (spendSkillPoint s skillId s)) skillId
                 = skillLevel (skills s) skillId) by (rewrite Heq; reflexivity).
    unfold spendSkillPoint in Hl. rewrite Hf in Hl.
    destruct (Z.leb_spec (skillPoints s) 0); [lia |].
    destruct (Z.leb_spec (s_maxLevel skill) (skillLevel (skills s) skillId));
      [lia |].
    destruct (Z.ltb_spec (skillPoints s)
                (s_getCost skill (skillLevel (skills s) skillId))); [lia |].
    cbn in Hl. rewrite skillLevel_insert in Hl. lia.
Qed.

Lemma applySkillEffects_idempotent skillId (sk : gmap string Z) (u : Upgrades) :
  applySkillEffects skillId sk (applySkillEffects skillId sk u) =
  applySkillEffects skillId sk u.
Proof.
  unfold applySkillEffects.
  destruct (String.eqb skillId "click_power_boost"); [reflexivity |].
  destruct (String.eqb skillId "auto_mine_speed"); [reflexivity |].
  destruct (String.eqb skillId "xp_gain"); [reflexivity |].
  destruct (String.eqb skillId "rare_resource_chance"); reflexivity.
Qed.

Lemma applySkillEffects_table (sk : gmap string Z) (u : Upgrades) :
  clickMultiplier (applySkillEffects "click_power_boost" sk u) =
    1 + inject_Z (skillLevel sk "click_power_boost") * (1#20) /\
  autoMultiplier (applySkillEffects "auto_mine_speed" sk u) =
    1 + inject_Z (skillLevel sk "auto_mine_speed") * (1#20) /\
  xpGainMultiplier (applySkillEffects "xp_gain" sk u) =
    1 + inject_Z (skillLevel sk "xp_gain") * (1#10) /\
  rareResourceChance (applySkillEffects "rare_resource_chance" sk u) =
    inject_Z (skillLevel sk "rare_resource_chance").
Proof. repeat split. Qed.

(** C9.  After a purchase that the engine accepted (the state changed) and
    that brought the skill to level [L], the field the skill governs holds
    the value of the table at [L], whatever it held before; applying the
    effect again at the same level changes nothing. *)
Theorem spendSkillPoint_effect_table (s : GameState) (skillId : string) :
  spendSkillPoint s skillId s <> s ->
  let s' := spendSkillPoint s skillId s in
  let L := skillLevel (skills s') skillId in
  L = (skillLevel (skills s) skillId + 1)%Z /\
  (skillId = "click_power_boost" ->
     clickMultiplier (upgrades s') == 1 + (5#100) * inject_Z L) /\
  (skillId = "auto_mine_speed" ->
     autoMultiplier (upgrades s') == 1 + (5#100) * inject_Z L) /\
  (skillId = "xp_gain" ->
     xpGainMultiplier (upgrades s') == 1 + (10#100) * inject_Z L) /\
  (skillId = "rare_resource_chance" ->
     rareResourceChance (upgrades s') == inject_Z L) /\
  applySkillEffects skillId (skills s') (upgrades s') = upgrades s'.
Proof.
  intros Hne s' L.
  destruct (spendSkillPoint_cases s s skillId)
    as [Heq | (skill & Hf & H1 & H2 & H3 & Hsk & Hup & _)]; [contradiction |].
  fold s' in Hsk, Hup.
  assert (HL : L = (skillLevel (skills s) skillId + 1)%Z).
  { unfold L. rewrite Hsk. apply skillLevel_insert. }
  split; [exact HL |].
  fold L in Hup. rewrite Hup.
  repeat split.
  - intros ->. rewrite (proj1 (applySkillEffects_table _ _)).
    subst L. ring.
  - intros ->. rewrite (proj1 (proj2 (applySkillEffects_table _ _))).
    subst L. ring.
  - intros ->. rewrite (proj1 (proj2 (proj2 (applySkillEffects_table _ _)))).
    subst L. ring.
  - intros ->.
    rewrite (proj2 (proj2 (proj2 (applySkillEffects_table _ _)))). reflexivity.
  - apply applySkillEffects_idempotent.
Qed.

Lemma spendSkillPoint_effect_table_witness :
  spendSkillPoint levelTwoState "click_power_boost" levelTwoState
    <> levelTwoState /\
  clickMultiplier
    (upgrades (spendSkillPoint levelTwoState "click_power_boost" levelTwoState))
    == 1 + (5#100) * 1.
Proof.
  assert (H : spendSkillPoint levelTwoState "click_power_boost" levelTwoState
              <> levelTwoState).
  { intros Heq. apply (f_equal skillPoints) in Heq. vm_compute in Heq.
    discriminate Heq. }
  split; [exact H |].
  destruct (spendSkillPoint_effect_table levelTwoState "click_power_boost" H)
    as (_ & Hclick & _).
  rewrite (Hclick eq_refl). reflexivity.
Defined.

Lemma levelTwoState_reached :
  gainXp 1 initialState 100 initialState = Some levelTwoState.
Proof. reflexivity. Qed.

(** When the gate of the skill panel is open and the level of the skill is
    not negative, the engine accepts. *)
Lemma spendSkillPoint_accepts_when_gate_open (s : GameState) (skill : Skill) :
  In skill SKILL_TREE ->
  (0 <= skillLevel (skills s) (s_id skill))%Z ->
  canAffordSkill s skill = true ->
  spendSkillPoint s (s_id skill) s <> s.
Proof.
  intros Hin Hlvl Hgate. apply spendSkillPoint_accepts. exists skill.
  unfold canAffordSkill in Hgate.
  apply andb_true_iff in Hgate as [Hgate _].
  apply andb_true_iff in Hgate as [Hcost Hmax].
  apply Z.leb_le in Hcost. apply Z.ltb_lt in Hmax.
  assert (Hfind : findSkill (s_id skill) = Some skill).
  { destruct Hin as [<- | [<- | [<- | [<- | [<- | []]]]]]; reflexivity. }
  assert (Hpos : (0 < s_getCost skill (skillLevel (skills s) (s_id skill)))%Z).
  { destruct Hin as [<- | [<- | [<- | [<- | [<- | []]]]]]; cbn in *; lia. }
  repeat split; try assumption. lia.
Qed.

(** C1.  The state after the first level-up has one skill point and every
    skill at level 0.  [xp_gain] requires [click_power_boost] and
    [auto_mine_speed]; the gate of the skill panel is closed, yet
    [spendSkillPoint] accepts: [xp_gain] reaches level 1, the point is spent
    and the experience multiplier becomes 1.1. *)
Theorem spendSkillPoint_ignores_prerequisites :
  exists skill,
    findSkill "xp_gain" = Some skill /\
    s_dependencies skill = Some ["click_power_boost"; "auto_mine_speed"] /\
    skillLevel (skills levelTwoState) "click_power_boost" = 0%Z /\
    skillLevel (skills levelTwoState) "auto_mine_speed" = 0%Z /\
    dependenciesMet levelTwoState skill = false /\
    canAffordSkill levelTwoState skill = false /\
    (s_getCost skill 0 <= skillPoints levelTwoState)%Z /\
    let s' := spendSkillPoint levelTwoState "xp_gain" levelTwoState in
    s' <> levelTwoState /\
    skillLevel (skills s') "xp_gain" = 1%Z /\
    skillPoints s' = 0%Z /\
    xpGainMultiplier (upgrades s') == 11#10.
Proof.
  eexists. split; [reflexivity |].
  repeat split; try reflexivity.
  intros Heq. apply (f_equal skillPoints) in Heq. vm_compute in Heq.
    discriminate Heq.
Qed.

(** ** Minigame countdown *)

(** The countdown starts at 10 whatever the state of the game. *)
Lemma startMinigame_timeLeft (s : GameState) (sh : Shell) (m : Minigame) :
  minigameOpen sh = true ->
  startMinigame (minigameProps s sh) m = mkMinigame 10 None.
Proof. intros H. unfold startMinigame, minigameProps. cbn. rewrite H. reflexivity. Qed.

Lemma bonusState_reached :
  spendAll ["click_power_boost"; "auto_mine_speed"; "xp_gain";
            "minigame_bonus"; "minigame_bonus"; "minigame_bonus"]
    eighteenPointsState = bonusState.
Proof. vm_compute. reflexivity. Qed.

(** C2.  With [minigame_bonus] at level 3, whose label reads "+3s minigame
    time", the minigame still starts with 10 seconds, not 13: it is won at
    the tenth tick of the timer and not before. *)
Theorem minigame_duration_ignores_bonus :
  skillLevel (skills bonusState) "minigame_bonus" = 3%Z /\
  (exists skill, findSkill "minigame_bonus" = Some skill /\
                 s_description skill = "Start minigame with a time bonus." /\
                 s_getEffect skill 3 = "+3s minigame time") /\
  let m := startMinigame (minigameProps bonusState (mkShell true 10))
             (mkMinigame 0 None) in
  timeLeft m = 10%Z /\
  timeLeft m <> (10 + skillLevel (skills bonusState) "minigame_bonus")%Z /\
  result (countdown 9 m) = None /\
  result (countdown 10 m) = Some win.
Proof.
  split; [reflexivity |]. split.
  - eexists. split; [reflexivity |]. split; reflexivity.
  - cbn. repeat split. intros H. vm_compute in H. discriminate H.
Qed.

(** ** Equipment *)

Lemma findEquipment_id (id : string) (l : list Equipment) (e : Equipment) :
  findEquipment id l = Some e -> String.eqb (e_id e) id = true.
Proof.
  intros H. apply List.find_some in H. exact (proj2 H).
Qed.

Lemma addOwned_found (id : string) (e : Equipment) :
  String.eqb (e_id e) id = true ->
  addOwned id e =
  mkEquipment (e_id e) (e_type e) (e_power e) (e_cost e) (e_owned e + 1)%Z.
Proof. intros H. unfold addOwned. rewrite H. reflexivity. Qed.

Lemma addOwned_id (id : string) (e : Equipment) :
  e_id (addOwned id e) = e_id e.
Proof. unfold addOwned. destruct (String.eqb (e_id e) id); reflexivity. Qed.

Lemma findEquipment_addOwned (id : string) (l : list Equipment) :
  findEquipment id (List.map (addOwned id) l) =
  option_map (addOwned id) (findEquipment id l).
Proof.
  induction l as [| a l IH]; [reflexivity |].
  cbn. rewrite addOwned_id.
  destruct (String.eqb (e_id a) id); [reflexivity | exact IH].
Qed.

Lemma addOwned_changes_list (id : string) (l : list Equipment) (e : Equipment) :
  findEquipment id l = Some e -> List.map (addOwned id) l <> l.
Proof.
  induction l as [| a l IH]; [discriminate |].
  cbn. destruct (String.eqb (e_id a) id) eqn:Ha.
  - intros _ Heq. injection Heq as Hhead _.
    rewrite (addOwned_found _ _ Ha) in Hhead.
    apply (f_equal e_owned) in Hhead. cbn in Hhead. lia.
  - intros Hfind Heq. injection Heq as _ Htail. exact (IH Hfind Htail).
Qed.

Lemma buyEquipment_accepted (u prev : GameState) (id : string) (e : Equipment) :
  findEquipment id (equipment u) = Some e ->
  Qltb (money u) (equipmentCost e) = false ->
  money (buyEquipment u id prev) = money u - equipmentCost e /\
  equipment (buyEquipment u id prev) = List.map (addOwned id) (equipment u).
Proof.
  intros Hfind Hpay. unfold buyEquipment. rewrite Hfind, Hpay. split; reflexivity.
Qed.

Lemma buyEquipment_rejected (u prev : GameState) (id : string) (e : Equipment) :
  findEquipment id (equipment u) = Some e ->
  Qltb (money u) (equipmentCost e) = true ->
  buyEquipment u id prev = prev.
Proof.
  intros Hfind Hpay. unfold buyEquipment. rewrite Hfind, Hpay. reflexivity.
Qed.

(** Along a run of purchases the entry keeps its base cost, its count grows
    by one per purchase, and the [k]-th purchase is charged the base cost
    times [1.5] to the count it found. *)
Lemma purchases_invariant (id : string) (s t : GameState) (costs : list Q)
    (e0 : Equipment) :
  findEquipment id (equipment s) = Some e0 ->
  purchases id s costs t ->
  (exists e, findEquipment id (equipment t) = Some e /\
             e_cost e = e_cost e0 /\
             e_owned e = (e_owned e0 + Z.of_nat (List.length costs))%Z) /\
  (forall k c, List.nth_error costs k = Some c ->
               c == e_cost e0 * Qpower (3#2) (e_owned e0 + Z.of_nat k)).
Proof.
  intros H0 Hrun.
  induction Hrun as [s | s costs t u e Hrun IH Hsame Hfind Hpay].
  - split.
    + exists e0. cbn. rewrite Z.add_0_r. auto.
    + intros [| k] c Hk; discriminate Hk.
  - destruct (IH H0) as [(e' & He' & Hcost & Hown) Hcosts].
    rewrite Hsame, He' in Hfind. injection Hfind as <-.
    rewrite <- Hsame in He'.
    destruct (buyEquipment_accepted u u id e' He' Hpay) as [Hmoney Hequip].
    pose proof (findEquipment_id _ _ _ He') as Hid.
    split.
    + exists (addOwned id e'). rewrite Hequip, findEquipment_addOwned, He'.
      split; [reflexivity |].
      rewrite (addOwned_found _ _ Hid). cbn.
      rewrite List.length_app. cbn. split; [exact Hcost | lia].
    + intros k c Hk.
      destruct (Nat.lt_ge_cases k (List.length costs)) as [Hlt | Hge].
      * rewrite List.nth_error_app1 in Hk by exact Hlt. exact (Hcosts k c Hk).
      * rewrite List.nth_error_app2 in Hk by exact Hge.
        destruct (k - List.length costs)%nat as [| j] eqn:Hj;
          [| destruct j; discriminate Hk].
        cbn in Hk. injection Hk as <-.
        assert (k = List.length costs) as -> by lia.
        rewrite Hmoney. unfold equipmentCost. rewrite Hcost, Hown. ring.
Qed.

(** Buying the first iron pickaxe with 125 coins: 50 are charged, one unit
    is owned and the click power is recomputed to [1 + 1]. *)
Example buyEquipment_first_pickaxe :
  let s' := buyEquipment richState "basic_pickaxe" richState in
  money s' == 75 /\ clickPower s' == 2 /\ autoMineRate s' == 0 /\
  option_map e_owned (findEquipment "basic_pickaxe" (equipment s')) = Some 1%Z.
Proof. cbn. repeat split. Qed.

Lemma catalog_costs_positive :
  List.Forall (fun e => 0 < e_cost e /\ e_owned e = 0%Z) INITIAL_EQUIPMENT.
Proof.
  unfold INITIAL_EQUIPMENT. repeat constructor; cbn; lra.
Qed.

(** C4.  Start from a state in which a kind of equipment with a positive
    base cost is not owned yet.  In every run of accepted purchases of that
    kind the [k]-th purchase (counting from 0) is charged
    [baseCost * 1.5^k], and the charges increase strictly.  And in every
    state, for every identifier found in the equipment list, [buyEquipment]
    leaves the state unchanged exactly when [money] is below
    [baseCost * 1.5^owned]. *)
Theorem buyEquipment_cost_sequence (equipmentId : string) (s t : GameState)
    (costs : list Q) (e0 : Equipment) :
  findEquipment equipmentId (equipment s) = Some e0 ->
  e_owned e0 = 0%Z ->
  0 < e_cost e0 ->
  purchases equipmentId s costs t ->
  (forall k c, List.nth_error costs k = Some c ->
               c == e_cost e0 * Qpower (3#2) (Z.of_nat k)) /\
  (forall j k cj ck, (j < k)%nat ->
               List.nth_error costs j = Some cj ->
               List.nth_error costs k = Some ck -> cj < ck) /\
  (forall u e, findEquipment equipmentId (equipment u) = Some e ->
               (buyEquipment u equipmentId u = u <->
                money u < e_cost e * Qpower (3#2) (e_owned e))).
Proof.
  intros Hfind Hfresh Hbase Hrun.
  destruct (purchases_invariant _ _ _ _ _ Hfind Hrun) as [_ Hcosts].
  rewrite Hfresh in Hcosts. cbn [Z.add] in Hcosts.
  split; [exact Hcosts |]. split.
  - intros j k cj ck Hjk Hj Hk.
    rewrite (Hcosts j cj Hj), (Hcosts k ck Hk).
    apply Qmult_lt_l; [exact Hbase |].
    apply Qpower_lt_compat_l; [lia | lra].
  - intros u e Hu. fold (equipmentCost e). split.
    + intros Hsame. apply Qltb_lt.
      destruct (Qltb (money u) (equipmentCost e)) eqn:Hpay; [reflexivity |].
      exfalso.
      destruct (buyEquipment_accepted u u equipmentId e Hu Hpay) as [_ Hequip].
      rewrite Hsame in Hequip.
      exact (addOwned_changes_list _ _ _ Hu (eq_sym Hequip)).
    + intros Hlt. apply Qltb_lt in Hlt.
      exact (buyEquipment_rejected u u equipmentId e Hu Hlt).
Qed.

Lemma buyEquipment_cost_sequence_witness :
  exists costs t,
    findEquipment "basic_pickaxe" (equipment richState)
      = Some (mkEquipment "basic_pickaxe" pickaxe 1 50 0) /\
    purchases "basic_pickaxe" richState costs t /\
    List.length costs = 2%nat /\
    (forall k c, List.nth_error costs k = Some c ->
                 c == 50 * Qpower (3#2) (Z.of_nat k)).
Proof.
  pose (id := "basic_pickaxe").
  pose (e0 := mkEquipment "basic_pickaxe" pickaxe 1 50 0).
  pose (u1 := buyEquipment richState id richState).
  assert (Hfind : findEquipment id (equipment richState) = Some e0)
    by reflexivity.
  assert (Hrun1 : purchases id richState
                    ([] ++ [money richState - money u1]) u1).
  { apply (purchases_more id richState [] richState richState e0);
      [apply purchases_none | reflexivity | reflexivity | reflexivity]. }
  assert (Hrun2 : purchases id richState
                    (([] ++ [money richState - money u1])
                       ++ [money u1 - money (buyEquipment u1 id u1)])
                    (buyEquipment u1 id u1)).
  { apply (purchases_more id richState _ u1 u1 (addOwned id e0));
      [exact Hrun1 | reflexivity | reflexivity | reflexivity]. }
  eexists. eexists. split; [exact Hfind |]. split; [exact Hrun2 |].
  split; [reflexivity |].
  assert (Hbase : 0 < e_cost e0) by (cbn; lra).
  exact (proj1 (buyEquipment_cost_sequence id richState _ _ e0
                  Hfind eq_refl Hbase Hrun2)).
Defined.

(** ** Minigame trigger *)

Lemma checkMinigameTrigger_last (g : GameState) (sh : Shell) :
  (Qfloor (depth g) <= lastDepthForMinigame (fst (checkMinigameTrigger g sh)))%Z
  /\ (lastDepthForMinigame sh
      <= lastDepthForMinigame (fst (checkMinigameTrigger g sh)))%Z.
Proof.
  unfold checkMinigameTrigger.
  destruct (Z.ltb_spec (lastDepthForMinigame sh) (Qfloor (depth g))).
  - destruct ((Z.rem (Qfloor (depth g)) 10 =? 0)%Z && Qltb 0 (depth g));
      cbn; lia.
  - cbn. lia.
Qed.

Lemma checkMinigameTrigger_quiet (g : GameState) (sh : Shell) :
  (Qfloor (depth g) <= lastDepthForMinigame sh)%Z ->
  checkMinigameTrigger g sh = (sh, false).
Proof.
  intros H. unfold checkMinigameTrigger.
  destruct (Z.ltb_spec (lastDepthForMinigame sh) (Qfloor (depth g)));
    [lia | reflexivity].
Qed.

(** Once the effect has run, running it again for the same render (as React
    does when [lastDepthForMinigame] changed) does nothing. *)
Lemma checkMinigameTrigger_rerun (g : GameState) (sh : Shell) :
  checkMinigameTrigger g (fst (checkMinigameTrigger g sh)) =
  (fst (checkMinigameTrigger g sh), false).
Proof.
  apply checkMinigameTrigger_quiet. apply checkMinigameTrigger_last.
Qed.

Lemma checkMinigameTrigger_fires (g : GameState) (sh : Shell) :
  (0 <= lastDepthForMinigame sh)%Z ->
  snd (checkMinigameTrigger g sh) = true <->
  (lastDepthForMinigame sh < Qfloor (depth g))%Z /\
  exists k, (0 < k)%Z /\ Qfloor (depth g) = (10 * k)%Z.
Proof.
  intros Hlast. unfold checkMinigameTrigger.
  destruct (Z.ltb_spec (lastDepthForMinigame sh) (Qfloor (depth g)))
    as [Hnew | Hold].
  - assert (Hpos : Qltb 0 (depth g) = true).
    { apply Qltb_lt. apply Qlt_le_trans with (inject_Z (Qfloor (depth g))).
      - change 0 with (inject_Z 0). rewrite <- Zlt_Qlt. lia.
      - apply Qfloor_le. }
    rewrite Hpos, andb_true_r.
    destruct (Z.eqb_spec (Z.rem (Qfloor (depth g)) 10) 0) as [Hrem | Hrem];
      cbn.
    + split; [intros _ | reflexivity]. split; [exact Hnew |].
      apply Z.rem_divide in Hrem; [| lia]. destruct Hrem as [k Hk].
      exists k. lia.
    + split; [discriminate |]. intros [_ (k & Hk & Hfl)]. exfalso.
      apply Hrem. apply Z.rem_divide; [lia |]. exists k. lia.
  - cbn. split; [discriminate | lia].
Qed.

(** C7.  A click at depth 9.9 brings the depth to 10 and the trigger fires
    once; the next auto-mining tick brings it to 10.05 and the trigger stays
    quiet, also after the minigame was closed; over the three renders
    [setMinigameOpen(true)] is called exactly once.  In general (the tracker
    [lastDepthForMinigame] starts at 0 and never decreases) the trigger fires
    exactly when the floor of the depth exceeds the tracker and is a positive
    multiple of 10, and after a run of the effect at some depth no run at a
    depth with the same or a smaller floor fires. *)
Theorem minigame_trigger_edge :
  (forall (fuel : nat) (rnd : Q), 0 <= rnd ->
     exists s10 s1005,
       mineResource fuel nearTenState rnd nearTenState = Some s10 /\
       depth s10 == 10 /\
       autoMineTick fuel s10 s10 = Some s1005 /\
       depth s1005 == 10 + (5#100) /\
       checkMinigameTrigger nearTenState initialShell
         = (mkShell false 9, false) /\
       checkMinigameTrigger s10 (mkShell false 9) = (mkShell true 10, true) /\
       checkMinigameTrigger s1005 (mkShell true 10)
         = (mkShell true 10, false) /\
       checkMinigameTrigger s1005 (closeMinigame (mkShell true 10))
         = (mkShell false 10, false) /\
       runTrigger [nearTenState; s10; s1005] initialShell
         = (mkShell true 10, 1%nat)) /\
  (forall (g : GameState) (sh : Shell),
     (0 <= lastDepthForMinigame sh)%Z ->
     (snd (checkMinigameTrigger g sh) = true <->
      (lastDepthForMinigame sh < Qfloor (depth g))%Z /\
      exists k, (0 < k)%Z /\ Qfloor (depth g) = (10 * k)%Z)) /\
  (forall (g g' : GameState) (sh : Shell),
     (Qfloor (depth g') <= Qfloor (depth g))%Z ->
     snd (checkMinigameTrigger g' (fst (checkMinigameTrigger g sh))) = false /\
     snd (checkMinigameTrigger g'
            (closeMinigame (fst (checkMinigameTrigger g sh)))) = false).
Proof.
  split; [| split].
  - intros fuel rnd Hrnd.
    assert (Hrare :
      Qltb rnd (rareResourceChance (upgrades nearTenState) / 100) = false).
    { apply Qltb_ge. cbn. unfold Qdiv. lra. }
    unfold mineResource. rewrite Hrare.
    destruct fuel; eexists; eexists;
      (split; [vm_compute; reflexivity |]);
      (split; [reflexivity |]);
      (split; [vm_compute; reflexivity |]);
      repeat split.
  - exact checkMinigameTrigger_fires.
  - intros g g' sh Hfloor.
    pose proof (checkMinigameTrigger_last g sh) as [Hlast _].
    split; rewrite checkMinigameTrigger_quiet; cbn; try reflexivity; lia.
Qed.

Lemma minigame_trigger_edge_witness :
  (0 <= lastDepthForMinigame initialShell)%Z /\
  (snd (checkMinigameTrigger bonusState initialShell) = true <->
   (lastDepthForMinigame initialShell < Qfloor (depth bonusState))%Z /\
   exists k, (0 < k)%Z /\ Qfloor (depth bonusState) = (10 * k)%Z).
Proof.
  assert (H : (0 <= lastDepthForMinigame initialShell)%Z) by (cbn; lia).
  split; [exact H |].
  exact (proj1 (proj2 minigame_trigger_edge) bonusState initialShell H).
Defined.

(** ** Selling *)

Lemma gainXp_no_level_up (fuel : nat) (gameState prev : GameState) (amount : Q) :
  xp prev + amount * xpGainMultiplier (upgrades gameState) < xpToNextLevel prev ->
  gainXp fuel gameState amount prev =
  Some {| level := level prev;
          xp := xp prev + amount * xpGainMultiplier (upgrades gameState);
          xpToNextLevel := xpToNextLevel prev;
          skillPoints := skillPoints prev;
          money := money prev; coal := coal prev; iron := iron prev;
          gold := gold prev; diamond := diamond prev;
          depth := depth prev; totalMined := totalMined prev;
          clickPower := clickPower prev; autoMineRate := autoMineRate prev;
          equipment := equipment prev; upgrades := upgrades prev;
          moneyUpgrades := moneyUpgrades prev; skills := skills prev |}.
Proof.
  intros H. unfold gainXp. rewrite levelUpLoop_exit by exact H. reflexivity.
Qed.

Lemma negative_sale_sign (amount value spm xgm : Q) :
  amount < 0 -> 0 < value -> 0 < spm -> 0 < xgm ->
  amount * value * spm < 0 /\ amount * value * spm / 10 * xgm < 0.
Proof.
  intros Ha Hv Hs Hx.
  assert (H1 : 0 < value * spm) by (apply Qmult_lt_0_compat; assumption).
  assert (H2 : 0 < (- amount) * (value * spm))
    by (apply Qmult_lt_0_compat; [lra | assumption]).
  assert (H3 : 0 < (- amount) * (value * spm) * xgm)
    by (apply Qmult_lt_0_compat; assumption).
  split.
  - assert (E : amount * value * spm == - ((- amount) * (value * spm)))
      by ring.
    rewrite E. lra.
  - assert (E : amount * value * spm / 10 * xgm
                == - ((- amount) * (value * spm) * xgm) * (1#10)) by field.
    rewrite E. lra.
Qed.

(** C10.  A sale of a negative amount of a catalog resource passes the
    check [quantity < amount] whenever the quantity is not negative.  For a
    state as the game produces them (positive sell-price and experience
    multipliers, experience below the threshold, see [reachable_wellFormed])
    the sale returns without a level-up: the quantity grows by [|amount|],
    [money] drops by [|amount| * value * sellPriceMultiplier], below zero
    when it was smaller than that, and the experience drops. *)
Theorem sellResource_negative_amount (s : GameState) (r : Resource)
    (amount : Q) :
  In r RESOURCES ->
  0 <= quantity s (r_id r) ->
  amount < 0 ->
  0 < sellPriceMultiplier (upgrades s) ->
  0 < xpGainMultiplier (upgrades s) ->
  xp s < xpToNextLevel s ->
  exists s',
    (forall fuel, sellResource fuel s (r_id r) amount s = Some s') /\
    s' <> s /\
    quantity s' (r_id r) == quantity s (r_id r) + Qabs amount /\
    money s' ==
      money s - Qabs amount * r_value r * sellPriceMultiplier (upgrades s) /\
    money s' < money s /\
    (money s < Qabs amount * r_value r * sellPriceMultiplier (upgrades s) ->
     money s' < 0) /\
    xp s' ==
      xp s + amount * r_value r * sellPriceMultiplier (upgrades s) / 10
             * xpGainMultiplier (upgrades s) /\
    xp s' < xp s /\
    level s' = level s.
Proof.
  intros Hin Hq Hamount Hspm Hxgm Hxp.
  assert (Hvalue : 0 < r_value r).
  { destruct Hin as [<- | [<- | [<- | [<- | []]]]]; cbn; lra. }
  destruct (negative_sale_sign amount (r_value r) _ _ Hamount Hvalue Hspm Hxgm)
    as [Hgain Hxpgain].
  assert (Habs : Qabs amount == - amount) by (apply Qabs_neg; lra).
  assert (Hcheck : Qltb (quantity s (r_id r)) amount = false)
    by (apply Qltb_ge; lra).
  assert (Hfind :
    List.find (fun r' => String.eqb (r_id r') (r_id r)) RESOURCES = Some r).
  { destruct Hin as [<- | [<- | [<- | [<- | []]]]]; reflexivity. }
  eexists. split; [| split].
  - intros fuel. unfold sellResource. rewrite Hfind, Hcheck.
    rewrite gainXp_no_level_up by lra. reflexivity.
  - intros Heq. apply (f_equal money) in Heq. cbn in Heq.
    assert (Hm : money s + amount * r_value r * sellPriceMultiplier (upgrades s)
                 == money s) by (rewrite Heq; reflexivity).
    lra.
  - cbn [money addMoney setQuantity xp level].
    repeat split; try lra.
    + destruct Hin as [<- | [<- | [<- | [<- | []]]]]; cbn; lra.
    + rewrite Habs. ring.
    + rewrite Habs. intros Hlow.
      assert (E : - amount * r_value r * sellPriceMultiplier (upgrades s)
                  == - (amount * r_value r * sellPriceMultiplier (upgrades s)))
        by ring.
      rewrite E in Hlow. lra.
Qed.

Lemma sellResource_negative_amount_witness :
  In (mkResource "coal" "Coal" 1 0) RESOURCES /\
  0 <= quantity initialState "coal" /\
  -5 < 0 /\
  0 < sellPriceMultiplier (upgrades initialState) /\
  0 < xpGainMultiplier (upgrades initialState) /\
  xp initialState < xpToNextLevel initialState /\
  exists s',
    sellResource 0 initialState "coal" (-5) initialState = Some s' /\
    coal s' == 5 /\ money s' == -5 /\ money s' < 0 /\ xp s' < 0.
Proof.
  assert (Hin : In (mkResource "coal" "Coal" 1 0) RESOURCES)
    by (cbn; tauto).
  assert (Hq : 0 <= quantity initialState "coal") by (cbn; lra).
  assert (Ha : -5 < 0) by lra.
  assert (Hs : 0 < sellPriceMultiplier (upgrades initialState))
    by (cbn; lra).
  assert (Hx : 0 < xpGainMultiplier (upgrades initialState)) by (cbn; lra).
  assert (Hxp : xp initialState < xpToNextLevel initialState) by (cbn; lra).
  repeat (split; [assumption |]).
  destruct (sellResource_negative_amount initialState _ (-5) Hin Hq Ha Hs Hx Hxp)
    as (s' & Hrun & _ & Hcoal & Hmoney & _ & Hbelow & _ & Hless & _).
  exists s'. split; [exact (Hrun 0%nat) |].
  split; [exact Hcoal |]. split; [exact Hmoney |].
  split; [apply Hbelow; reflexivity | exact Hless].
Defined.

(** ** Invariants of reachable states *)

Lemma gainXp_frame (fuel : nat) (gameState prev s' : GameState) (amount : Q) :
  gainXp fuel gameState amount prev = Some s' ->
  1 <= xpToNextLevel prev ->
  (xp s' < xpToNextLevel s' /\ 1 <= xpToNextLevel s') /\
  upgrades s' = upgrades prev /\ skills s' = skills prev /\
  moneyUpgrades s' = moneyUpgrades prev.
Proof.
  unfold gainXp. intros Hrun Hthr.
  destruct (levelUpLoop fuel _ _ _ _) as [[[[x l] thr] sp] |] eqn:Hloop;
    [| discriminate].
  injection Hrun as <-. cbn.
  apply levelUpLoop_post in Hloop; [| exact Hthr].
  destruct Hloop as (H1 & H2 & _). auto.
Qed.

Lemma wellFormed_frame (s s' : GameState) :
  wellFormed s ->
  xp s' < xpToNextLevel s' -> 1 <= xpToNextLevel s' ->
  upgrades s' = upgrades s -> skills s' = skills s ->
  moneyUpgrades s' = moneyUpgrades s ->
  wellFormed s'.
Proof.
  intros [H1 H2 H3 H4 H5 H6] Hxp Hthr Hu Hs Hm.
  constructor; rewrite ?Hu, ?Hs, ?Hm; assumption.
Qed.

Lemma wellFormed_initial : wellFormed initialState.
Proof.
  constructor; cbn; try lra.
  - intros id. unfold skillLevel. rewrite lookup_empty. cbn. lia.
  - repeat constructor; cbn; try assumption; lra.
Qed.

Lemma addLevel_keepsSigns (id : string) (l : list MoneyUpgrade) :
  List.Forall keepsSigns l -> List.Forall keepsSigns (List.map (addLevel id) l).
Proof.
  intros H. induction H as [| u l Hu _ IH]; cbn; constructor; [| exact IH].
  unfold addLevel. destruct (String.eqb (u_id u) id); exact Hu.
Qed.

Lemma applySkillEffects_signs (id : string) (sk : gmap string Z) (u : Upgrades) :
  (0 <= skillLevel sk id)%Z ->
  0 < sellPriceMultiplier u -> 0 < xpGainMultiplier u ->
  0 < sellPriceMultiplier (applySkillEffects id sk u) /\
  0 < xpGainMultiplier (applySkillEffects id sk u).
Proof.
  intros Hl Hs Hx. unfold applySkillEffects.
  assert (Hq : 0 <= inject_Z (skillLevel sk id)).
  { change 0 with (inject_Z 0). rewrite <- Zle_Qle. exact Hl. }
  destruct (String.eqb id "click_power_boost"); [cbn; auto |].
  destruct (String.eqb id "auto_mine_speed"); [cbn; auto |].
  destruct (String.eqb id "xp_gain"); [cbn; split; [assumption | lra] |].
  destruct (String.eqb id "rare_resource_chance"); cbn; auto.
Qed.

Lemma step_wellFormed (s s' : GameState) :
  wellFormed s -> step s s' -> wellFormed s'.
Proof.
  intros Hwf Hstep. pose proof Hwf as [H1 H2 H3 H4 H5 H6].
  destruct Hstep as
    [fuel rnd s s' _ Hrun | fuel s s' Hrun | fuel id amount s s' Hrun
    | id s | id s | id s | fuel res s s' Hrun].
  - unfold mineResource in Hrun.
    destruct (gainXp fuel s _ s) as [p |] eqn:Hgain; [| discriminate].
    injection Hrun as <-.
    destruct (gainXp_frame _ _ _ _ _ Hgain H1) as ((Ha & Hb) & Hc & Hd & He).
    apply (wellFormed_frame s); assumption.
  - unfold autoMineTick in Hrun.
    destruct (Qeq_bool (autoMineRate s) 0);
      [injection Hrun as <-; exact Hwf |].
    destruct (gainXp fuel s _ s) as [p |] eqn:Hgain; [| discriminate].
    injection Hrun as <-.
    destruct (gainXp_frame _ _ _ _ _ Hgain H1) as ((Ha & Hb) & Hc & Hd & He).
    apply (wellFormed_frame s); assumption.
  - unfold sellResource in Hrun.
    destruct (List.find _ RESOURCES) as [r |];
      [| injection Hrun as <-; exact Hwf].
    destruct (Qltb (quantity s id) amount);
      [injection Hrun as <-; exact Hwf |].
    destruct (gainXp fuel s _ s) as [p |] eqn:Hgain; [| discriminate].
    injection Hrun as <-.
    destruct (gainXp_frame _ _ _ _ _ Hgain H1) as ((Ha & Hb) & Hc & Hd & He).
    apply (wellFormed_frame s); assumption.
  - unfold buyEquipment.
    destruct (findEquipment id (equipment s)) as [e |]; [| exact Hwf].
    destruct (Qltb (money s) (equipmentCost e)); [exact Hwf |].
    apply (wellFormed_frame s); auto.
  - unfold buyMoneyUpgrade.
    destruct (List.find _ (moneyUpgrades s)) as [u |] eqn:Hfind; [| exact Hwf].
    destruct (Qltb (money s) _); [exact Hwf |].
    apply List.find_some in Hfind as [Hin _].
    rewrite List.Forall_forall in H6.
    destruct (H6 u Hin (upgrades s) H3 H4) as [Ha Hb].
    constructor; cbn; try assumption.
    apply addLevel_keepsSigns. apply List.Forall_forall. exact H6.
  - destruct (spendSkillPoint_cases s s id)
      as [-> | (skill & _ & _ & _ & _ & Hsk & Hup & _)]; [exact Hwf |].
    assert (Hframe :
      xp (spendSkillPoint s id s) = xp s /\
      xpToNextLevel (spendSkillPoint s id s) = xpToNextLevel s /\
      moneyUpgrades (spendSkillPoint s id s) = moneyUpgrades s).
    { unfold spendSkillPoint. destruct (findSkill id); [| auto].
      destruct (skillPoints s <=? 0)%Z; [auto |].
      destruct (s_maxLevel _ <=? _)%Z; [auto |].
      destruct (skillPoints s <? _)%Z; auto. }
    destruct Hframe as (Hx & Ht & Hm).
    assert (Hlevels : forall id', (0 <= skillLevel
                         (skills (spendSkillPoint s id s)) id')%Z).
    { intros id'. rewrite Hsk. unfold skillLevel.
      destruct (decide (id = id')) as [<- | Hne].
      - rewrite lookup_insert_eq. cbn. specialize (H5 id).
        unfold skillLevel in H5. lia.
      - rewrite lookup_insert_ne by exact Hne. apply H5. }
    destruct (applySkillEffects_signs id (skills (spendSkillPoint s id s))
                (upgrades s) (Hlevels id) H3 H4) as [Ha Hb].
    constructor; rewrite ?Hx, ?Ht, ?Hm, ?Hup; assumption.
  - destruct res; cbn in Hrun.
    + destruct (gainXp_frame _ _ _ _ _ Hrun H1) as ((Ha & Hb) & Hc & Hd & He).
      apply (wellFormed_frame s); assumption.
    + injection Hrun as <-. apply (wellFormed_frame s); auto.
Qed.

(** Every state the game can reach has a threshold of at least 1, experience
    below it, positive sell-price and experience multipliers, and no negative
    skill level. *)
Lemma reachable_wellFormed (s : GameState) : reachable s -> wellFormed s.
Proof.
  induction 1 as [| s s' _ IH Hstep];
    [exact wellFormed_initial | exact (step_wellFormed s s' IH Hstep)].
Qed.

(** * Further properties of the code *)

(** ** Minigame: countdown *)

Lemma countdown_S (n : nat) (m : Minigame) :
  countdown (S n) m = timerTick (countdown n m).
Proof. reflexivity. Qed.

Lemma countdown_state (t : Z) (n : nat) :
  (1 <= t)%Z ->
  countdown n (mkMinigame t None) =
  if (t <=? Z.of_nat n)%Z then mkMinigame 0 (Some win)
  else mkMinigame (t - Z.of_nat n) None.
Proof.
  intros Ht. induction n as [| n IH].
  - change (countdown 0 (mkMinigame t None)) with (mkMinigame t None).
    change (Z.of_nat 0) with 0%Z.
    destruct (Z.leb_spec t 0); [lia |]. rewrite Z.sub_0_r. reflexivity.
  - rewrite countdown_S, IH. unfold timerTick.
    destruct (Z.leb_spec t (Z.of_nat n)); destruct (Z.leb_spec t (Z.of_nat (S n)));
      cbn [timeLeft result]; try lia.
    + reflexivity.
    + destruct (Z.leb_spec (t - Z.of_nat n) 1); [reflexivity | lia].
    + destruct (Z.leb_spec (t - Z.of_nat n) 1); [lia |].
      f_equal. lia.
Qed.

(** X1.  A countdown started at [t >= 1] seconds with no result yet shows
    [max 0 (t - n)] after [n] timer ticks, never a negative number, and the
    result is [win] from the [t]-th tick on and still open before. *)
Theorem countdown_wins_at_zero (t : Z) (n : nat) :
  (1 <= t)%Z ->
  timeLeft (countdown n (mkMinigame t None)) = Z.max 0 (t - Z.of_nat n) /\
  (result (countdown n (mkMinigame t None)) = Some win <-> (t <= Z.of_nat n)%Z) /\
  (result (countdown n (mkMinigame t None)) = None <-> (Z.of_nat n < t)%Z).
Proof.
  intros Ht. rewrite (countdown_state t n Ht).
  destruct (Z.leb_spec t (Z.of_nat n)); cbn [timeLeft result].
  - split; [lia |]. split; split; intros; try lia; try reflexivity; discriminate.
  - split; [lia |]. split; split; intros; try lia; try reflexivity; discriminate.
Qed.

Lemma countdown_wins_at_zero_witness :
  (1 <= 10)%Z /\
  timeLeft (countdown 4 (mkMinigame 10 None)) = 6%Z /\
  result (countdown 4 (mkMinigame 10 None)) = None.
Proof.
  assert (H : (1 <= 10)%Z) by lia.
  split; [exact H |].
  destruct (countdown_wins_at_zero 10 4 H) as (Ht & _ & Hopen).
  split; [exact Ht | apply Hopen; reflexivity].
Defined.

(** ** Minigame: the player *)

Lemma handleKeyDown_in_range (key : string) (p : Player) :
  0 <= pl_x p <= canvasWidth - pl_width p ->
  0 <= pl_x (handleKeyDown key p) <= canvasWidth - pl_width (handleKeyDown key p)
  /\ pl_y (handleKeyDown key p) = pl_y p
  /\ pl_width (handleKeyDown key p) = pl_width p
  /\ pl_height (handleKeyDown key p) = pl_height p
  /\ Qabs (pl_x (handleKeyDown key p) - pl_x p) <= 10.
Proof.
  intros [Hlo Hhi]. unfold handleKeyDown.
  destruct (String.eqb key "ArrowLeft").
  - cbn [pl_x pl_y pl_width pl_height].
    destruct (Q.max_spec 0 (pl_x p - 10)) as [[Hc Hm] | [Hc Hm]];
      repeat split; try lra; apply Qabs_Qle_condition; split; lra.
  - destruct (String.eqb key "ArrowRight").
    + cbn [pl_x pl_y pl_width pl_height].
      destruct (Q.min_spec (canvasWidth - pl_width p) (pl_x p + 10))
        as [[Hc Hm] | [Hc Hm]];
        repeat split; try lra; apply Qabs_Qle_condition; split; lra.
    + repeat split; try lra.
      apply Qabs_Qle_condition. split; lra.
Qed.

(** X2.  Whatever keys are pressed, a player that starts on the canvas stays
    on it: [0 <= x <= canvas.width - player.width]; the keys never change the
    height, the width or the vertical position. *)
Theorem handleKeyDown_stays_on_canvas (keys : list string) (p : Player) :
  0 <= pl_x p <= canvasWidth - pl_width p ->
  let p' := List.fold_left (fun q key => handleKeyDown key q) keys p in
  0 <= pl_x p' <= canvasWidth - pl_width p' /\
  pl_y p' = pl_y p /\ pl_width p' = pl_width p /\ pl_height p' = pl_height p.
Proof.
  revert p. induction keys as [| key keys IH]; intros p Hp p'; subst p';
    cbn [List.fold_left].
  - repeat split; try reflexivity; apply Hp.
  - destruct (handleKeyDown_in_range key p Hp) as (Hr & Hy & Hw & Hh & _).
    pose proof (IH (handleKeyDown key p) Hr) as Hrest. cbv zeta in Hrest.
    destruct Hrest as (Hr' & Hy' & Hw' & Hh').
    split; [exact Hr' |]. repeat split; congruence.
Qed.

Lemma handleKeyDown_stays_on_canvas_witness :
  0 <= pl_x initialPlayer <= canvasWidth - pl_width initialPlayer /\
  pl_x (List.fold_left (fun q key => handleKeyDown key q)
          (List.repeat "ArrowRight" 30) initialPlayer) <= 380.
Proof.
  assert (H : 0 <= pl_x initialPlayer <= canvasWidth - pl_width initialPlayer)
    by (vm_compute; split; discriminate).
  split; [exact H |].
  exact (proj2 (proj1 (handleKeyDown_stays_on_canvas
                         (List.repeat "ArrowRight" 30) initialPlayer H))).
Defined.

(** ** Minigame: the gas lines *)

(** X3.  A new line, for draws of [Math.random()] in [0, 1), lies within
    the width of the canvas ([0 <= x] and [x + width < 400]), is between 50
    and 150 wide, falls at a speed between 1 and 3, starts above the top
    edge, and does not touch a player standing anywhere on the canvas. *)
Theorem spawnGasLine_on_canvas (r1 r2 r3 : Q) (p : Player) :
  0 <= r1 < 1 -> 0 <= r2 < 1 -> 0 <= r3 < 1 ->
  0 <= pl_y p ->
  let line := spawnGasLine r1 r2 r3 in
  0 <= g_x line /\
  g_x line + g_width line < canvasWidth /\
  50 <= g_width line < 150 /\
  1 <= g_speed line < 3 /\
  g_y line + g_height line < 0 /\
  overlaps p line = false.
Proof.
  intros [H1 H1'] [H2 H2'] [H3 H3'] Hp line. subst line.
  unfold spawnGasLine, canvasWidth.
  cbn [g_x g_y g_width g_height g_speed].
  assert (Hroom : 0 < 400 - (r1 * 100 + 50)) by lra.
  assert (Hx0 : 0 <= r2 * (400 - (r1 * 100 + 50)))
    by (apply Qmult_le_0_compat; lra).
  assert (Hx1 : r2 * (400 - (r1 * 100 + 50)) < 1 * (400 - (r1 * 100 + 50)))
    by (apply Qmult_lt_compat_r; lra).
  repeat split; try lra.
  unfold overlaps. cbn [g_x g_y g_width g_height g_speed].
  assert (Habove : Qltb (pl_y p) (-20 + 10) = false)
    by (apply Qltb_ge; lra).
  rewrite Habove, andb_false_r. reflexivity.
Qed.

Lemma spawnGasLine_on_canvas_witness :
  0 <= 1#2 < 1 /\ 0 <= pl_y initialPlayer /\
  g_x (spawnGasLine (1#2) (1#2) (1#2))
  + g_width (spawnGasLine (1#2) (1#2) (1#2)) < canvasWidth.
Proof.
  assert (H : 0 <= 1#2 < 1) by (split; lra).
  assert (Hp : 0 <= pl_y initialPlayer) by (vm_compute; discriminate).
  split; [exact H |]. split; [exact Hp |].
  exact (proj1 (proj2 (spawnGasLine_on_canvas (1#2) (1#2) (1#2)
                         initialPlayer H H H Hp))).
Defined.

Lemma updateGasLines_app (f : Q) (a b : list GasLine) :
  updateGasLines f (a ++ b)%list
  = (updateGasLines f a ++ updateGasLines f b)%list.
Proof.
  unfold updateGasLines. rewrite List.map_app, List.filter_app. reflexivity.
Qed.

(** The lines fall independently of each other. *)
Lemma updateGasLines_iter_app (f : Q) (n : nat) (a b : list GasLine) :
  Nat.iter n (updateGasLines f) (a ++ b)%list
  = (Nat.iter n (updateGasLines f) a ++ Nat.iter n (updateGasLines f) b)%list.
Proof.
  induction n as [| n IH]; [reflexivity |].
  cbn [Nat.iter nat_rect]. change (nat_rect _ ?x _ n) with (Nat.iter n (updateGasLines f) x).
  rewrite IH. apply updateGasLines_app.
Qed.

Lemma updateGasLines_single (f : Q) (line : GasLine) :
  updateGasLines f [line] =
  if Qltb (g_y line + g_speed line * f) canvasHeight
  then [mkGasLine (g_x line) (g_y line + g_speed line * f) (g_width line)
          (g_height line) (g_speed line)]
  else [].
Proof. reflexivity. Qed.

(** X4.  A line that falls by a non-negative step per frame is, after
    [n + 1] frames, either gone, and then its start plus [n + 1] steps is at
    or below the bottom edge, or still there, alone and unchanged except
    that it is exactly [n + 1] steps lower and above the bottom edge.  So a
    line is on the canvas after [k >= 1] frames exactly when
    [y + k * speed * gameSpeed < canvas.height]. *)
Theorem gas_line_falls (f : Q) (line : GasLine) (n : nat) :
  0 <= g_speed line * f ->
  match Nat.iter (S n) (updateGasLines f) [line] with
  | [] =>
      canvasHeight
      <= g_y line + inject_Z (Z.of_nat (S n)) * (g_speed line * f)
  | [l] =>
      g_y l == g_y line + inject_Z (Z.of_nat (S n)) * (g_speed line * f) /\
      g_y l < canvasHeight /\
      g_x l = g_x line /\ g_width l = g_width line /\
      g_height l = g_height line /\ g_speed l = g_speed line
  | _ => False
  end.
Proof.
  intros Hstep. induction n as [| n IH].
  - change (Nat.iter 1 (updateGasLines f) [line])
      with (updateGasLines f [line]).
    rewrite updateGasLines_single.
    change (inject_Z (Z.of_nat 1)) with 1.
    destruct (Qltb (g_y line + g_speed line * f) canvasHeight) eqn:Hc.
    + apply Qltb_lt in Hc. cbn [g_x g_y g_width g_height g_speed].
      repeat split; try reflexivity; lra.
    + apply Qltb_ge in Hc. lra.
  - change (Nat.iter (S (S n)) (updateGasLines f) [line])
      with (updateGasLines f (Nat.iter (S n) (updateGasLines f) [line])).
    assert (Hn : inject_Z (Z.of_nat (S (S n)))
                 == inject_Z (Z.of_nat (S n)) + 1).
    { rewrite (Nat2Z.inj_succ (S n)). unfold Z.succ.
      rewrite inject_Z_plus. reflexivity. }
    assert (Hpos : 0 <= inject_Z (Z.of_nat (S n))).
    { change 0 with (inject_Z 0). rewrite <- Zle_Qle. lia. }
    destruct (Nat.iter (S n) (updateGasLines f) [line]) as [| l [| l2 rest]];
      [| | contradiction].
    + change (updateGasLines f []) with (@nil GasLine). cbv iota.
      rewrite Hn. lra.
    + destruct IH as (Hy & Hin & Hx & Hw & Hh & Hs).
      rewrite updateGasLines_single, Hs.
      destruct (Qltb (g_y l + g_speed line * f) canvasHeight) eqn:Hc.
      * apply Qltb_lt in Hc. cbv iota.
        cbn [g_x g_y g_width g_height g_speed].
        rewrite Hn. repeat split; try assumption; lra.
      * apply Qltb_ge in Hc. cbv iota. rewrite Hn. lra.
Qed.

Lemma gas_line_falls_witness :
  0 <= g_speed (spawnGasLine 0 0 0) * gameSpeed 50 /\
  List.length (Nat.iter 259 (updateGasLines (gameSpeed 50))
                 [spawnGasLine 0 0 0]) = 1%nat /\
  Nat.iter 260 (updateGasLines (gameSpeed 50)) [spawnGasLine 0 0 0] = [].
Proof.
  assert (H : 0 <= g_speed (spawnGasLine 0 0 0) * gameSpeed 50)
    by (vm_compute; discriminate).
  split; [exact H |]. split.
  - pose proof (gas_line_falls (gameSpeed 50) (spawnGasLine 0 0 0) 258 H) as F.
    destruct (Nat.iter 259 (updateGasLines (gameSpeed 50))
                [spawnGasLine 0 0 0]) as [| l [| l2 rest]].
    + exfalso. vm_compute in F. apply F. reflexivity.
    + reflexivity.
    + contradiction.
  - pose proof (gas_line_falls (gameSpeed 50) (spawnGasLine 0 0 0) 259 H) as F.
    destruct (Nat.iter 260 (updateGasLines (gameSpeed 50))
                [spawnGasLine 0 0 0]) as [| l [| l2 rest]].
    + reflexivity.
    + exfalso. destruct F as (Hy & Hlt & _). rewrite Hy in Hlt.
      vm_compute in Hlt. discriminate Hlt.
    + contradiction.
Defined.






(** ** Minigame trigger over a whole run *)

Lemma checkMinigameTrigger_advance (g : GameState) (sh : Shell) :
  (0 <= lastDepthForMinigame sh)%Z ->
  (lastDepthForMinigame sh
   <= lastDepthForMinigame (fst (checkMinigameTrigger g sh)))%Z /\
  (snd (checkMinigameTrigger g sh) = true ->
   (lastDepthForMinigame sh / 10 + 1
    <= lastDepthForMinigame (fst (checkMinigameTrigger g sh)) / 10)%Z).
Proof.
  intros Hlast. split; [apply checkMinigameTrigger_last |].
  intros Hfired.
  destruct (proj1 (checkMinigameTrigger_fires g sh Hlast) Hfired)
    as (Hnew & k & Hk & Hfl).
  unfold checkMinigameTrigger in *.
  destruct (lastDepthForMinigame sh <? Qfloor (depth g))%Z; [| discriminate].
  destruct ((Z.rem (Qfloor (depth g)) 10 =? 0)%Z && Qltb 0 (depth g));
    [| discriminate].
  cbn [fst lastDepthForMinigame]. rewrite Hfl in *.
  replace (10 * k)%Z with (k * 10)%Z by lia. rewrite Z.div_mul by lia.
  assert (lastDepthForMinigame sh / 10 < k)%Z
    by (apply Z.div_lt_upper_bound; lia).
  lia.
Qed.

(** X6.  Over any sequence of renders the minigame is opened at most once
    per multiple of ten that the tracker passes: the number of openings is
    at most [floor (last' / 10) - floor (last / 10)], where [last] and
    [last'] are the tracker before and after, and the tracker never
    decreases. *)
Theorem runTrigger_once_per_ten (renders : list GameState) (sh : Shell) :
  (0 <= lastDepthForMinigame sh)%Z ->
  (lastDepthForMinigame sh
   <= lastDepthForMinigame (fst (runTrigger renders sh)))%Z /\
  (Z.of_nat (snd (runTrigger renders sh))
   <= lastDepthForMinigame (fst (runTrigger renders sh)) / 10
      - lastDepthForMinigame sh / 10)%Z.
Proof.
  revert sh. induction renders as [| g rest IH]; intros sh Hlast.
  - cbn. lia.
  - cbn [runTrigger].
    destruct (checkMinigameTrigger_advance g sh Hlast) as [Hmono Hfire].
    destruct (checkMinigameTrigger g sh) as [sh1 fired] eqn:Hstep.
    cbn [fst snd] in Hmono, Hfire.
    assert (Hlast1 : (0 <= lastDepthForMinigame sh1)%Z) by lia.
    specialize (IH sh1 Hlast1).
    destruct (runTrigger rest sh1) as [sh2 n] eqn:Hrest.
    cbn [fst snd] in *. destruct IH as [IH1 IH2].
    assert (Hdiv : (lastDepthForMinigame sh / 10
                    <= lastDepthForMinigame sh1 / 10)%Z)
      by (apply Z.div_le_mono; lia).
    split; [lia |].
    destruct fired; [specialize (Hfire eq_refl) |]; lia.
Qed.

Lemma runTrigger_once_per_ten_witness :
  (0 <= lastDepthForMinigame initialShell)%Z /\
  (Z.of_nat (snd (runTrigger [nearTenState; bonusState; bonusState]
                    initialShell)) <= 1)%Z.
Proof.
  assert (H : (0 <= lastDepthForMinigame initialShell)%Z) by (cbn; lia).
  split; [exact H |].
  exact (proj2 (runTrigger_once_per_ten
                  [nearTenState; bonusState; bonusState] initialShell H)).
Defined.

(** ** Experience in general *)

Lemma levelUpLoop_nonneg fuel x l thr sp x' l' thr' sp' :
  0 <= x ->
  levelUpLoop fuel x l thr sp = Some (x', l', thr', sp') -> 0 <= x'.
Proof.
  revert x l thr sp.
  induction fuel as [| fuel IH]; intros x l thr sp Hx Hrun; cbn in Hrun.
  - destruct (Qle_bool thr x); [discriminate |].
    injection Hrun as <- _ _ _. exact Hx.
  - destruct (Qle_bool thr x) eqn:Hc.
    + apply Qle_bool_iff in Hc. apply IH in Hrun; [exact Hrun | lra].
    + injection Hrun as <- _ _ _. exact Hx.
Qed.

Lemma levelUpLoop_levels fuel x l thr sp x' l' thr' sp' :
  1 <= thr ->
  levelUpLoop fuel x l thr sp = Some (x', l', thr', sp') ->
  (l' = l <-> x < thr).
Proof.
  intros Hthr Hrun. destruct (Qlt_le_dec x thr) as [Hlt | Hge].
  - rewrite levelUpLoop_exit in Hrun by exact Hlt.
    injection Hrun as _ <- _ _. tauto.
  - destruct fuel as [| fuel].
    + cbn in Hrun. apply Qle_bool_iff in Hge. rewrite Hge in Hrun.
      discriminate.
    + rewrite levelUpLoop_step in Hrun by exact Hge.
      apply levelUpLoop_post in Hrun; [| apply next_threshold_ge_1; exact Hthr].
      split; [lia | lra].
Qed.

Lemma levelUpLoop_total (x : Q) (l : Z) (thr : Q) (sp : Z) :
  1 <= thr ->
  exists x' l' thr' sp',
    (forall fuel, (Z.to_nat (Qfloor x) <= fuel)%nat ->
       levelUpLoop fuel x l thr sp = Some (x', l', thr', sp')) /\
    x' < thr' /\ 1 <= thr' /\ (l <= l')%Z /\ (sp' - sp = l' - l)%Z /\
    (l' = l <-> x < thr) /\ (0 <= x -> 0 <= x').
Proof.
  intros Hthr.
  destruct (levelUpLoop_terminates (Z.to_nat (Qfloor x)) x l thr sp Hthr
              (Nat.le_refl _)) as [[[[x' l'] thr'] sp'] Hrun].
  exists x', l', thr', sp'. split.
  - intros fuel Hfuel. exact (levelUpLoop_fuel_mono _ _ _ _ _ _ _ Hfuel Hrun).
  - destruct (levelUpLoop_post _ _ _ _ _ _ _ _ _ Hthr Hrun) as (H1 & H2 & H3 & H4).
    repeat split; try assumption.
    + apply (levelUpLoop_levels _ _ _ _ _ _ _ _ _ Hthr Hrun).
    + apply (levelUpLoop_levels _ _ _ _ _ _ _ _ _ Hthr Hrun).
    + intros Hx. exact (levelUpLoop_nonneg _ _ _ _ _ _ _ _ _ Hx Hrun).
Qed.

(** [gainXp] returns whenever the threshold is at least 1, and touches
    nothing but the four fields of the level. *)
Lemma gainXp_total (gameState prev : GameState) (amount : Q) :
  1 <= xpToNextLevel prev ->
  exists s',
    (forall fuel,
       (Z.to_nat (Qfloor (xp prev
                          + amount * xpGainMultiplier (upgrades gameState)))
        <= fuel)%nat ->
       gainXp fuel gameState amount prev = Some s') /\
    (xp s' < xpToNextLevel s' /\ 1 <= xpToNextLevel s' /\
     (level prev <= level s')%Z /\
     (skillPoints s' - skillPoints prev = level s' - level prev)%Z /\
     (level s' = level prev <->
      xp prev + amount * xpGainMultiplier (upgrades gameState)
      < xpToNextLevel prev) /\
     (0 <= xp prev + amount * xpGainMultiplier (upgrades gameState) ->
      0 <= xp s')) /\
    (money s' = money prev /\ coal s' = coal prev /\ iron s' = iron prev /\
     gold s' = gold prev /\ diamond s' = diamond prev /\
     depth s' = depth prev /\ totalMined s' = totalMined prev /\
     clickPower s' = clickPower prev /\ autoMineRate s' = autoMineRate prev /\
     equipment s' = equipment prev /\ upgrades s' = upgrades prev /\
     moneyUpgrades s' = moneyUpgrades prev /\ skills s' = skills prev).
Proof.
  intros Hthr.
  destruct (levelUpLoop_total
              (xp prev + amount * xpGainMultiplier (upgrades gameState))
              (level prev) (xpToNextLevel prev) (skillPoints prev) Hthr)
    as (x' & l' & thr' & sp' & Hrun & Hpost).
  eexists. split; [| split].
  - intros fuel Hfuel. unfold gainXp. rewrite (Hrun fuel Hfuel). reflexivity.
  - cbn [xp xpToNextLevel level skillPoints]. exact Hpost.
  - cbn. repeat split.
Qed.

(** X7.  For a threshold of at least 1, [gainXp] returns after at most
    [floor (xp + gained)] iterations.  It leaves the experience below the
    new threshold, never lowers the level, hands out exactly one skill
    point per level gained, gains no level exactly when the new experience
    stays below the old threshold, keeps non-negative experience
    non-negative, and changes neither money nor any stock. *)
Theorem gainXp_accounts (gameState prev : GameState) (amount : Q) :
  1 <= xpToNextLevel prev ->
  exists s',
    (forall fuel,
       (Z.to_nat (Qfloor (xp prev
                          + amount * xpGainMultiplier (upgrades gameState)))
        <= fuel)%nat ->
       gainXp fuel gameState amount prev = Some s') /\
    xp s' < xpToNextLevel s' /\
    (level prev <= level s')%Z /\
    (skillPoints s' - skillPoints prev = level s' - level prev)%Z /\
    (level s' = level prev <->
     xp prev + amount * xpGainMultiplier (upgrades gameState)
     < xpToNextLevel prev) /\
    (0 <= xp prev + amount * xpGainMultiplier (upgrades gameState) ->
     0 <= xp s') /\
    money s' = money prev /\
    getTotalValue s' = getTotalValue prev.
Proof.
  intros Hthr.
  destruct (gainXp_total gameState prev amount Hthr)
    as (s' & Hrun & (H1 & H2 & H3 & H4 & H5 & H6)
        & (Hm & Hc & Hi & Hg & Hd & _)).
  exists s'. repeat split; try assumption; try apply H5.
  unfold getTotalValue. rewrite Hc, Hi, Hg, Hd. reflexivity.
Qed.

Lemma gainXp_accounts_witness :
  1 <= xpToNextLevel initialState /\
  exists s',
    gainXp 1000 initialState 1000 initialState = Some s' /\
    (skillPoints s' - skillPoints initialState
     = level s' - level initialState)%Z.
Proof.
  assert (H : 1 <= xpToNextLevel initialState) by (vm_compute; discriminate).
  split; [exact H |].
  destruct (gainXp_accounts initialState initialState 1000 H)
    as (s' & Hrun & _ & _ & Hsp & _).
  exists s'. split; [| exact Hsp].
  apply Hrun. vm_compute. lia.
Defined.

(** ** Stocks and sales *)

Lemma quantity_setQuantity_same (s : GameState) (r : Resource) (v : Q) :
  In r RESOURCES -> quantity (setQuantity s (r_id r) v) (r_id r) = v.
Proof.
  intros [<- | [<- | [<- | [<- | []]]]]; reflexivity.
Qed.

Lemma quantity_setQuantity_other (s : GameState) (id id' : string) (v : Q) :
  id <> id' -> quantity (setQuantity s id v) id' = quantity s id'.
Proof.
  intros Hne. unfold quantity, setQuantity.
  cbn [coal iron gold diamond].
  destruct (String.eqb_spec id' "coal") as [-> | _].
  { destruct (String.eqb_spec id "coal"); [contradiction | reflexivity]. }
  destruct (String.eqb_spec id' "iron") as [-> | _].
  { destruct (String.eqb_spec id "iron"); [contradiction | reflexivity]. }
  destruct (String.eqb_spec id' "gold") as [-> | _].
  { destruct (String.eqb_spec id "gold"); [contradiction | reflexivity]. }
  destruct (String.eqb_spec id' "diamond") as [-> | _]; [| reflexivity].
  destruct (String.eqb_spec id "diamond"); [contradiction | reflexivity].
Qed.

(** The unit values written out in [getTotalValue] are those of the
    catalog. *)
Lemma getTotalValue_catalog (s : GameState) :
  getTotalValue s ==
  List.fold_right (fun r acc => quantity s (r_id r) * r_value r + acc) 0
    RESOURCES.
Proof. unfold getTotalValue. cbn. ring. Qed.

Lemma getTotalValue_setQuantity (s : GameState) (r : Resource) (v : Q) :
  In r RESOURCES ->
  getTotalValue (setQuantity s (r_id r) v)
  == getTotalValue s + (v - quantity s (r_id r)) * r_value r.
Proof.
  intros [<- | [<- | [<- | [<- | []]]]]; unfold getTotalValue; cbn; ring.
Qed.

Lemma find_resource (r : Resource) :
  In r RESOURCES ->
  List.find (fun r' => String.eqb (r_id r') (r_id r)) RESOURCES = Some r.
Proof.
  intros [<- | [<- | [<- | [<- | []]]]]; reflexivity.
Qed.

(** An accepted sale, for a threshold of at least 1. *)
Lemma sellResource_total (s : GameState) (r : Resource) (amount : Q) :
  In r RESOURCES ->
  amount <= quantity s (r_id r) ->
  1 <= xpToNextLevel s ->
  exists s1,
    (forall fuel,
       (Z.to_nat
          (Qfloor (xp s
                   + amount * r_value r * sellPriceMultiplier (upgrades s) / 10
                     * xpGainMultiplier (upgrades s)))
        <= fuel)%nat ->
       gainXp fuel s
         (amount * r_value r * sellPriceMultiplier (upgrades s) / 10) s
       = Some s1 /\
       sellResource fuel s (r_id r) amount s =
       Some (addMoney
               (setQuantity s1 (r_id r) (quantity s1 (r_id r) - amount))
               (amount * r_value r * sellPriceMultiplier (upgrades s)))) /\
    money s1 = money s /\
    (forall id, quantity s1 id = quantity s id) /\
    getTotalValue s1 = getTotalValue s /\
    depth s1 = depth s.
Proof.
  intros Hin Hamount Hthr.
  destruct (gainXp_total s s
              (amount * r_value r * sellPriceMultiplier (upgrades s) / 10) Hthr)
    as (s1 & Hrun & _ & (Hm & Hc & Hi & Hg & Hd & Hdepth & _)).
  exists s1. split; [| repeat split].
  - intros fuel Hfuel. split; [exact (Hrun fuel Hfuel) |].
    unfold sellResource. rewrite (find_resource r Hin).
    assert (Hcheck : Qltb (quantity s (r_id r)) amount = false)
      by (apply Qltb_ge; exact Hamount).
    rewrite Hcheck, (Hrun fuel Hfuel). reflexivity.
  - exact Hm.
  - intros id. unfold quantity. rewrite Hc, Hi, Hg, Hd. reflexivity.
  - unfold getTotalValue. rewrite Hc, Hi, Hg, Hd. reflexivity.
  - exact Hdepth.
Qed.

Lemma quantity_addMoney (t : GameState) (g : Q) (id : string) :
  quantity (addMoney t g) id = quantity t id.
Proof. reflexivity. Qed.

(** X8.  A sale of any amount up to the stock (threshold at least 1)
    returns: the stock of that resource drops by the amount, the other
    stocks, the depth and the equipment stay, and [money] grows by
    [amount * value * sellPriceMultiplier], which is the sell-price
    multiplier times the drop of [getTotalValue]. *)
Theorem sellResource_converts_value (s : GameState) (r : Resource)
    (amount : Q) :
  In r RESOURCES ->
  amount <= quantity s (r_id r) ->
  1 <= xpToNextLevel s ->
  exists s',
    (forall fuel,
       (Z.to_nat
          (Qfloor (xp s
                   + amount * r_value r * sellPriceMultiplier (upgrades s) / 10
                     * xpGainMultiplier (upgrades s)))
        <= fuel)%nat ->
       sellResource fuel s (r_id r) amount s = Some s') /\
    quantity s' (r_id r) == quantity s (r_id r) - amount /\
    (forall id, id <> r_id r -> quantity s' id = quantity s id) /\
    money s' == money s + amount * r_value r * sellPriceMultiplier (upgrades s)
    /\
    money s' - money s
    == sellPriceMultiplier (upgrades s) * (getTotalValue s - getTotalValue s')
    /\
    depth s' = depth s.
Proof.
  intros Hin Hamount Hthr.
  destruct (sellResource_total s r amount Hin Hamount Hthr)
    as (s1 & Hrun & Hm & Hq & Hv & Hd).
  eexists. split; [intros fuel Hfuel; exact (proj2 (Hrun fuel Hfuel)) |].
  split; [| split; [| split; [| split]]].
  - rewrite quantity_addMoney, quantity_setQuantity_same by exact Hin.
    rewrite Hq. reflexivity.
  - intros id Hne. rewrite quantity_addMoney.
    rewrite quantity_setQuantity_other by congruence. apply Hq.
  - cbn [money addMoney setQuantity]. rewrite Hm. reflexivity.
  - assert (Hval : getTotalValue
                     (addMoney
                        (setQuantity s1 (r_id r) (quantity s1 (r_id r) - amount))
                        (amount * r_value r * sellPriceMultiplier (upgrades s)))
                   == getTotalValue s - amount * r_value r).
    { change (getTotalValue (addMoney ?t ?g)) with (getTotalValue t).
      rewrite getTotalValue_setQuantity by exact Hin. rewrite Hv, Hq. ring. }
    rewrite Hval. cbn [money addMoney setQuantity]. rewrite Hm. ring.
  - cbn [depth addMoney setQuantity]. exact Hd.
Qed.

Lemma sellResource_converts_value_witness :
  In (mkResource "iron" "Iron" 5 10) RESOURCES /\
  10 <= quantity stockedState "iron" /\
  1 <= xpToNextLevel stockedState /\
  exists s',
    sellResource 57 stockedState "iron" 10 stockedState = Some s' /\
    iron s' == 2 /\ money s' == 150.
Proof.
  assert (Hin : In (mkResource "iron" "Iron" 5 10) RESOURCES)
    by (cbn; tauto).
  assert (Ha : 10 <= quantity stockedState (r_id (mkResource "iron" "Iron" 5 10)))
    by (vm_compute; discriminate).
  assert (Ht : 1 <= xpToNextLevel stockedState) by (vm_compute; discriminate).
  split; [exact Hin |]. split; [exact Ha |]. split; [exact Ht |].
  destruct (sellResource_converts_value stockedState _ 10 Hin Ha Ht)
    as (s' & Hrun & Hiron & _ & Hmoney & _).
  exists s'. split; [apply Hrun; vm_compute; lia |].
  split; [exact Hiron | exact Hmoney].
Defined.



(** ** Mining in general *)

Lemma getCurrentResource_in_catalog (s : GameState) :
  In (getCurrentResource s) RESOURCES.
Proof.
  unfold getCurrentResource. rewrite available_resources.
  destruct (Qle_bool 0 (depth s)), (Qle_bool 10 (depth s)),
    (Qle_bool 25 (depth s)), (Qle_bool 50 (depth s)); cbn; tauto.
Qed.

(** What the updater of [mineResource] and of the auto-mining tick does to a
    state [s1] whose stocks are those of [s]. *)
Lemma credit_current (s s1 : GameState) (r : Resource) (power step : Q) :
  In r RESOURCES ->
  (forall id, quantity s1 id = quantity s id) ->
  getTotalValue s1 = getTotalValue s ->
  let s' := addMined (setQuantity s1 (r_id r) (quantity s1 (r_id r) + power))
              power step in
  quantity s' (r_id r) == quantity s (r_id r) + power /\
  (forall id, id <> r_id r -> quantity s' id = quantity s id) /\
  getTotalValue s' == getTotalValue s + power * r_value r /\
  totalMined s' = totalMined s1 + power /\
  depth s' = depth s1 + step /\
  money s' = money s1.
Proof.
  intros Hin Hq Hv s'. subst s'.
  change (quantity (addMined ?t ?p ?d) ?id) with (quantity t id).
  change (getTotalValue (addMined ?t ?p ?d)) with (getTotalValue t).
  split; [| split; [| split]].
  - rewrite quantity_setQuantity_same by exact Hin. rewrite Hq. reflexivity.
  - intros id Hne. rewrite quantity_setQuantity_other by congruence. apply Hq.
  - rewrite getTotalValue_setQuantity by exact Hin. rewrite Hv, Hq. ring.
  - repeat split.
Qed.

(** X10.  A click (threshold at least 1) returns and credits exactly the
    resource current at the depth of the click: with [power] the click power
    times the click multiplier, doubled when the draw is below the rare
    chance, that stock and [totalMined] grow by [power], the depth by
    [power * 0.1], [getTotalValue] by [power] times the unit value, and
    neither [money] nor another stock changes. *)
Theorem mineResource_credits_current (s : GameState) (rnd : Q) :
  1 <= xpToNextLevel s ->
  let r := getCurrentResource s in
  let power :=
    if Qltb rnd (rareResourceChance (upgrades s) / 100)
    then clickPower s * clickMultiplier (upgrades s) * 2
    else clickPower s * clickMultiplier (upgrades s) in
  exists s',
    (forall fuel,
       (Z.to_nat (Qfloor (xp s + power * xpGainMultiplier (upgrades s)))
        <= fuel)%nat ->
       mineResource fuel s rnd s = Some s') /\
    In r RESOURCES /\
    quantity s' (r_id r) == quantity s (r_id r) + power /\
    (forall id, id <> r_id r -> quantity s' id = quantity s id) /\
    getTotalValue s' == getTotalValue s + power * r_value r /\
    totalMined s' = totalMined s + power /\
    depth s' = depth s + power * (1#10) /\
    money s' = money s.
Proof.
  intros Hthr r power.
  pose proof (getCurrentResource_in_catalog s) as Hin. fold r in Hin.
  destruct (gainXp_total s s power Hthr)
    as (s1 & Hrun & _ & (Hm & Hc & Hi & Hg & Hd & Hdepth & Htotal & _)).
  assert (Hq : forall id, quantity s1 id = quantity s id).
  { intros id. unfold quantity. rewrite Hc, Hi, Hg, Hd. reflexivity. }
  assert (Hv : getTotalValue s1 = getTotalValue s).
  { unfold getTotalValue. rewrite Hc, Hi, Hg, Hd. reflexivity. }
  destruct (credit_current s s1 r power (power * (1#10)) Hin Hq Hv)
    as (H1 & H2 & H3 & H4 & H5 & H6).
  eexists. split.
  - intros fuel Hfuel. unfold mineResource. fold r. fold power.
    rewrite (Hrun fuel Hfuel). reflexivity.
  - split; [exact Hin |]. split; [exact H1 |]. split; [exact H2 |].
    split; [exact H3 |].
    rewrite H4, H5, H6, Htotal, Hdepth, Hm. repeat split.
Qed.

Lemma mineResource_credits_current_witness :
  1 <= xpToNextLevel stockedState /\
  exists s',
    mineResource 53 stockedState (1#2) stockedState = Some s' /\
    iron s' == 13 /\ getTotalValue s' == 105.
Proof.
  assert (Ht : 1 <= xpToNextLevel stockedState) by (vm_compute; discriminate).
  split; [exact Ht |].
  destruct (mineResource_credits_current stockedState (1#2) Ht)
    as (s' & Hrun & _ & Hq & _ & Hv & _).
  exists s'. split; [apply Hrun; vm_compute; lia |].
  split; [exact Hq | exact Hv].
Defined.

(** X11.  An auto-mining tick (threshold at least 1) does nothing when
    [autoMineRate] is 0.  Otherwise it returns and credits the current
    resource with [power = autoMineRate * autoMultiplier]: that stock and
    [totalMined] grow by [power], the depth by [power * 0.05], half of what
    a click of the same power adds, and [money] stays. *)
Theorem autoMineTick_credits_current (s : GameState) :
  1 <= xpToNextLevel s ->
  let r := getCurrentResource s in
  let power := autoMineRate s * autoMultiplier (upgrades s) in
  (autoMineRate s == 0 -> forall fuel, autoMineTick fuel s s = Some s) /\
  (~ autoMineRate s == 0 ->
   exists s',
     (forall fuel,
        (Z.to_nat (Qfloor (xp s + power / 2 * xpGainMultiplier (upgrades s)))
         <= fuel)%nat ->
        autoMineTick fuel s s = Some s') /\
     quantity s' (r_id r) == quantity s (r_id r) + power /\
     (forall id, id <> r_id r -> quantity s' id = quantity s id) /\
     totalMined s' = totalMined s + power /\
     depth s' = depth s + power * (1#20) /\
     money s' = money s).
Proof.
  intros Hthr r power. split.
  - intros Hzero fuel. unfold autoMineTick.
    apply Qeq_bool_iff in Hzero. rewrite Hzero. reflexivity.
  - intros Hrate.
    assert (Hgo : Qeq_bool (autoMineRate s) 0 = false).
    { destruct (Qeq_bool (autoMineRate s) 0) eqn:Hc; [| reflexivity].
      apply Qeq_bool_iff in Hc. contradiction. }
    pose proof (getCurrentResource_in_catalog s) as Hin. fold r in Hin.
    destruct (gainXp_total s s (power / 2) Hthr)
      as (s1 & Hrun & _ & (Hm & Hc & Hi & Hg & Hd & Hdepth & Htotal & _)).
    assert (Hq : forall id, quantity s1 id = quantity s id).
    { intros id. unfold quantity. rewrite Hc, Hi, Hg, Hd. reflexivity. }
    assert (Hv : getTotalValue s1 = getTotalValue s).
    { unfold getTotalValue. rewrite Hc, Hi, Hg, Hd. reflexivity. }
    destruct (credit_current s s1 r power (power * (1#20)) Hin Hq Hv)
      as (H1 & H2 & H3 & H4 & H5 & H6).
    eexists. split.
    + intros fuel Hfuel. unfold autoMineTick. rewrite Hgo.
      fold r. fold power. rewrite (Hrun fuel Hfuel). reflexivity.
    + split; [exact H1 |]. split; [exact H2 |].
      rewrite H4, H5, H6, Htotal, Hdepth, Hm. repeat split.
Qed.

Lemma autoMineTick_credits_current_witness :
  1 <= xpToNextLevel nearTenState /\
  ~ autoMineRate nearTenState == 0 /\
  exists s',
    autoMineTick 0 nearTenState nearTenState = Some s' /\ coal s' == 1.
Proof.
  assert (Ht : 1 <= xpToNextLevel nearTenState) by (vm_compute; discriminate).
  assert (Hr : ~ autoMineRate nearTenState == 0)
    by (vm_compute; discriminate).
  split; [exact Ht |]. split; [exact Hr |].
  destruct (proj2 (autoMineTick_credits_current nearTenState Ht) Hr)
    as (s' & Hrun & Hq & _).
  exists s'. split; [apply Hrun; vm_compute; lia | exact Hq].
Defined.

(** ** Equipment and the derived statistics *)






Lemma catalogWithCounts_explicit (l : list Equipment) :
  catalogWithCounts l ->
  exists o1 o2 o3 o4 o5 o6 o7,
    l = [ mkEquipment "basic_pickaxe" pickaxe 1 50 o1;
          mkEquipment "steel_pickaxe" pickaxe 5 200 o2;
          mkEquipment "auto_miner" automation 1 300 o3;
          mkEquipment "auto_drill" automation 5 1500 o4;
          mkEquipment "mega_miner" automation 25 7500 o5;
          mkEquipment "drill" drill 10 1000 o6;
          mkEquipment "mega_drill" drill 50 5000 o7 ] /\
    (0 <= o1 /\ 0 <= o2 /\ 0 <= o3 /\ 0 <= o4 /\ 0 <= o5 /\ 0 <= o6
     /\ 0 <= o7)%Z.
Proof.
  unfold catalogWithCounts, INITIAL_EQUIPMENT. intros H.
  repeat match goal with
         | H : List.Forall2 _ _ (_ :: _) |- _ =>
             inversion H as [| ? ? ? ? [? ?] ?]; subst; clear H
         | H : List.Forall2 _ _ [] |- _ => inversion H; subst; clear H
         end.
  cbn [e_id e_type e_power e_cost] in *.
  repeat match goal with
         | H : ?e = mkEquipment _ _ _ _ (e_owned ?e) |- _ =>
             generalize dependent (e_owned e); intros; subst e
         end.
  do 7 eexists. split; [reflexivity |]. tauto.
Qed.


Lemma catalogWithCounts_initial : catalogWithCounts INITIAL_EQUIPMENT.
Proof.
  unfold catalogWithCounts, INITIAL_EQUIPMENT.
  repeat (constructor; [split; [reflexivity | cbn; lia] |]). constructor.
Qed.

Lemma inject_Z_nonneg (z : Z) : (0 <= z)%Z -> 0 <= inject_Z z.
Proof.
  intros H. change 0 with (inject_Z 0). rewrite <- Zle_Qle. exact H.
Qed.



(** X13.  In a state whose equipment list is the catalog with counts and
    whose statistics agree with it, an accepted purchase takes the cost
    from [money] and raises exactly one statistic by the power of the item
    bought: [clickPower] for a pickaxe or a drill, [autoMineRate] for
    automation; the other statistic and the stocks stay. *)
Theorem buyEquipment_raises_one_stat (s : GameState) (id : string)
    (e : Equipment) :
  catalogWithCounts (equipment s) ->
  statsDerived s ->
  findEquipment id (equipment s) = Some e ->
  equipmentCost e <= money s ->
  let s' := buyEquipment s id s in
  money s' == money s - equipmentCost e /\
  (isClickGear e = true ->
   clickPower s' == clickPower s + e_power e /\
   autoMineRate s' == autoMineRate s) /\
  (isAutomation e = true ->
   autoMineRate s' == autoMineRate s + e_power e /\
   clickPower s' == clickPower s) /\
  getTotalValue s' = getTotalValue s /\
  statsDerived s'.
Proof.
  intros Hcat [Hclick Hauto] Hfind Hpay s'. subst s'.
  assert (Hacc : Qltb (money s) (equipmentCost e) = false)
    by (apply Qltb_ge; exact Hpay).
  unfold buyEquipment. rewrite Hfind, Hacc.
  unfold statsDerived.
  cbn [money clickPower autoMineRate equipment getTotalValue coal iron gold
       diamond].
  split; [reflexivity |].
  destruct (catalogWithCounts_explicit _ Hcat)
    as (o1 & o2 & o3 & o4 & o5 & o6 & o7 & Hl & _).
  rewrite Hclick, Hauto. rewrite Hl in *. clear Hclick Hauto Hcat Hl.
  unfold findEquipment in Hfind. cbn [List.find e_id] in Hfind.
  repeat match type of Hfind with
         | (if String.eqb ?a id then _ else _) = _ =>
             destruct (String.eqb_spec a id) as [<- | _]
         end;
    try discriminate Hfind;
    injection Hfind as <-;
    cbn [List.map addOwned e_id e_type e_power e_cost e_owned
         String.eqb Ascii.eqb Bool.eqb andb
         List.filter isClickGear isAutomation];
    unfold sumPower; cbn [List.fold_left e_power e_owned];
    rewrite ?inject_Z_plus; change (inject_Z 1) with 1;
    (split; [intros Hk; try discriminate Hk; split; ring |]);
    (split; [intros Hk; try discriminate Hk; split; ring |]);
    (split; [reflexivity | split; reflexivity]).
Qed.

Lemma buyEquipment_raises_one_stat_witness :
  catalogWithCounts (equipment richState) /\
  statsDerived richState /\
  findEquipment "basic_pickaxe" (equipment richState)
    = Some (mkEquipment "basic_pickaxe" pickaxe 1 50 0) /\
  equipmentCost (mkEquipment "basic_pickaxe" pickaxe 1 50 0)
    <= money richState /\
  clickPower (buyEquipment richState "basic_pickaxe" richState)
    == clickPower richState + 1.
Proof.
  assert (Hcat : catalogWithCounts (equipment richState))
    by exact catalogWithCounts_initial.
  assert (Hst : statsDerived richState) by (split; vm_compute; reflexivity).
  assert (Hfind : findEquipment "basic_pickaxe" (equipment richState)
                  = Some (mkEquipment "basic_pickaxe" pickaxe 1 50 0))
    by reflexivity.
  assert (Hpay : equipmentCost (mkEquipment "basic_pickaxe" pickaxe 1 50 0)
                 <= money richState) by (vm_compute; discriminate).
  split; [exact Hcat |]. split; [exact Hst |]. split; [exact Hfind |].
  split; [exact Hpay |].
  destruct (buyEquipment_raises_one_stat richState "basic_pickaxe" _
              Hcat Hst Hfind Hpay) as (_ & Hclick & _).
  exact (proj1 (Hclick eq_refl)).
Defined.

(** ** Skills over a whole run *)












(** ** Money *)



(** ** Unknown identifiers *)

Lemma find_nothing {A} (f : A -> bool) (l : list A) :
  (forall x, In x l -> f x = false) -> List.find f l = None.
Proof.
  induction l as [| a l IH]; intros H; [reflexivity |].
  cbn. rewrite (H a (or_introl eq_refl)). apply IH.
  intros x Hx. apply H. right. exact Hx.
Qed.

Lemma eqb_false_of_ne (a b : string) : a <> b -> String.eqb a b = false.
Proof. intros H. destruct (String.eqb_spec a b); [contradiction | reflexivity]. Qed.

(** X16.  An identifier that names nothing is ignored by every handler
    that takes one: selling a resource that is not in the catalog, buying
    equipment or an upgrade that is not in the state's lists, and spending
    a point on a skill that is not in the tree all leave the state as it
    was. *)
Theorem unknown_identifier_ignored :
  (forall fuel gameState prev id amount,
     (forall r, In r RESOURCES -> r_id r <> id) ->
     sellResource fuel gameState id amount prev = Some prev) /\
  (forall gameState prev id,
     (forall e, In e (equipment gameState) -> e_id e <> id) ->
     buyEquipment gameState id prev = prev) /\
  (forall gameState prev id,
     (forall u, In u (moneyUpgrades gameState) -> u_id u <> id) ->
     buyMoneyUpgrade gameState id prev = prev) /\
  (forall gameState prev id,
     (forall sk, In sk SKILL_TREE -> s_id sk <> id) ->
     spendSkillPoint gameState id prev = prev).
Proof.
  repeat split.
  - intros fuel gs prev id amount H. unfold sellResource.
    rewrite find_nothing; [reflexivity |].
    intros r Hr. apply eqb_false_of_ne. apply H. exact Hr.
  - intros gs prev id H. unfold buyEquipment, findEquipment.
    rewrite find_nothing; [reflexivity |].
    intros e He. apply eqb_false_of_ne. apply H. exact He.
  - intros gs prev id H. unfold buyMoneyUpgrade.
    rewrite find_nothing; [reflexivity |].
    intros u Hu. apply eqb_false_of_ne. apply H. exact Hu.
  - intros gs prev id H. unfold spendSkillPoint, findSkill.
    rewrite find_nothing; [reflexivity |].
    intros sk Hsk. apply eqb_false_of_ne. apply H. exact Hsk.
Qed.

Lemma unknown_identifier_ignored_witness :
  (forall r, In r RESOURCES -> r_id r <> "uranium") /\
  sellResource 0 initialState "uranium" 1 initialState = Some initialState.
Proof.
  assert (H : forall r, In r RESOURCES -> r_id r <> "uranium").
  { intros r [<- | [<- | [<- | [<- | []]]]]; cbn; discriminate. }
  split; [exact H |].
  exact (proj1 unknown_identifier_ignored 0%nat initialState initialState
           "uranium" 1 H).
Defined.

(** ** Money upgrades *)

Lemma addLevel_id (id : string) (u : MoneyUpgrade) :
  u_id (addLevel id u) = u_id u.
Proof. unfold addLevel. destruct (String.eqb (u_id u) id); reflexivity. Qed.

Lemma find_addLevel (id : string) (l : list MoneyUpgrade) :
  List.find (fun u => String.eqb (u_id u) id) (List.map (addLevel id) l) =
  option_map (addLevel id) (List.find (fun u => String.eqb (u_id u) id) l).
Proof.
  induction l as [| a l IH]; [reflexivity |].
  cbn. rewrite addLevel_id.
  destruct (String.eqb (u_id a) id); [reflexivity | exact IH].
Qed.

Lemma addLevel_changes_list (id : string) (l : list MoneyUpgrade)
    (u : MoneyUpgrade) :
  List.find (fun u => String.eqb (u_id u) id) l = Some u ->
  List.map (addLevel id) l <> l.
Proof.
  induction l as [| a l IH]; [discriminate |].
  cbn. destruct (String.eqb (u_id a) id) eqn:Ha.
  - intros _ Heq. injection Heq as Hhead _.
    unfold addLevel in Hhead. rewrite Ha in Hhead.
    apply (f_equal u_level) in Hhead. cbn in Hhead. lia.
  - intros Hfind Heq. injection Heq as _ Htail. exact (IH Hfind Htail).
Qed.

(** X17.  For an upgrade found in the state's list, with
    [cost = base * 2^level]: [buyMoneyUpgrade] leaves the state unchanged
    exactly when [money < cost]; otherwise it takes [cost] from [money],
    applies the upgrade's effect to the multipliers, raises the level of
    that upgrade by one so that its next cost is exactly twice this one,
    and touches neither the stocks nor the equipment. *)
Theorem buyMoneyUpgrade_price_doubles (s : GameState) (id : string)
    (u : MoneyUpgrade) :
  List.find (fun u => String.eqb (u_id u) id) (moneyUpgrades s) = Some u ->
  let cost := u_cost u * Qpower 2 (u_level u) in
  let s' := buyMoneyUpgrade s id s in
  (s' = s <-> money s < cost) /\
  (cost <= money s ->
   money s' = money s - cost /\
   upgrades s' = u_effect u (upgrades s) /\
   (exists u',
      List.find (fun u => String.eqb (u_id u) id) (moneyUpgrades s') = Some u'
      /\ u_level u' = (u_level u + 1)%Z /\ u_cost u' = u_cost u
      /\ u_effect u' = u_effect u
      /\ u_cost u' * Qpower 2 (u_level u') == 2 * cost) /\
   getTotalValue s' = getTotalValue s /\
   equipment s' = equipment s /\ skills s' = skills s).
Proof.
  intros Hfind cost s'. subst s'. unfold buyMoneyUpgrade. rewrite Hfind.
  fold cost. split.
  - destruct (Qltb (money s) cost) eqn:Hpay.
    + apply Qltb_lt in Hpay. tauto.
    + apply Qltb_ge in Hpay. split; [| intros Hlt; lra].
      intros Heq. exfalso. apply (f_equal moneyUpgrades) in Heq. cbn in Heq.
      exact (addLevel_changes_list _ _ _ Hfind Heq).
  - intros Hpay. apply Qltb_ge in Hpay. rewrite Hpay.
    cbn [money upgrades moneyUpgrades equipment skills].
    split; [reflexivity |]. split; [reflexivity |].
    split; [| unfold getTotalValue; cbn; auto].
    exists (addLevel id u). rewrite find_addLevel, Hfind.
    split; [reflexivity |].
    apply List.find_some in Hfind as [_ Hid].
    unfold addLevel. rewrite Hid. cbn [u_level u_cost u_effect].
    repeat split. unfold cost.
    rewrite Qpower_plus by discriminate. change (Qpower 2 1) with 2. ring.
Qed.

Lemma buyMoneyUpgrade_price_doubles_witness :
  exists u,
    List.find (fun u => String.eqb (u_id u) "click_power_1")
      (moneyUpgrades stockedState) = Some u /\
    u_cost u * Qpower 2 (u_level u) <= money stockedState /\
    money (buyMoneyUpgrade stockedState "click_power_1" stockedState)
    = money stockedState - u_cost u * Qpower 2 (u_level u).
Proof.
  eexists.
  match goal with
  | |- ?f /\ _ => assert (Hf : f) by reflexivity
  end.
  split; [exact Hf |].
  match goal with
  | |- ?c /\ _ => assert (Hc : c) by (vm_compute; discriminate)
  end.
  split; [exact Hc |].
  exact (proj1 (proj2 (buyMoneyUpgrade_price_doubles stockedState
                         "click_power_1" _ Hf) Hc)).
Defined.

(** ** Skills and upgrades on the same multiplier *)

Lemma spendSkillPoint_click (s : GameState) :
  (0 < skillPoints s)%Z ->
  (skillLevel (skills s) "click_power_boost" < 10)%Z ->
  (skillLevel (skills s) "click_power_boost" + 1 <= skillPoints s)%Z ->
  clickMultiplier (upgrades (spendSkillPoint s "click_power_boost" s))
  == 1 + (5#100) * inject_Z (skillLevel (skills s) "click_power_boost" + 1) /\
  money (spendSkillPoint s "click_power_boost" s) = money s /\
  moneyUpgrades (spendSkillPoint s "click_power_boost" s) = moneyUpgrades s.
Proof.
  intros H1 H2 H3. unfold spendSkillPoint.
  change (findSkill "click_power_boost")
    with (Some (mkSkill "click_power_boost"
                  "Permanently increase click power." 10
                  (fun level => "+" +:+ pretty (level * 5)%Z
                                +:+ "% click power")
                  (fun level => level + 1)%Z None)).
  cbn [s_maxLevel s_getCost].
  destruct (Z.leb_spec (skillPoints s) 0); [lia |].
  destruct (Z.leb_spec 10 (skillLevel (skills s) "click_power_boost"));
    [lia |].
  destruct (Z.ltb_spec (skillPoints s)
              (skillLevel (skills s) "click_power_boost" + 1)); [lia |].
  cbn [upgrades money moneyUpgrades].
  rewrite (proj1 (applySkillEffects_table _ _)), skillLevel_insert.
  repeat split. ring.
Qed.

(** X18.  A skill purchase and a money upgrade that act on the same
    multiplier do not commute.  When both "Reinforced Clicks" (an effect
    that multiplies [clickMultiplier] by 1.1) and a level of
    [click_power_boost] can be paid: upgrade first and skill second leaves
    [clickMultiplier = 1 + 0.05 * L], the upgrade's factor is gone; skill
    first and upgrade second leaves [(1 + 0.05 * L) * 1.1]; [money] is the
    same either way. *)
Theorem skill_purchase_overwrites_upgrade (s : GameState) (u : MoneyUpgrade) :
  List.find (fun u => String.eqb (u_id u) "click_power_1") (moneyUpgrades s)
    = Some u ->
  (forall b, clickMultiplier (u_effect u b) == clickMultiplier b * (11#10)) ->
  u_cost u * Qpower 2 (u_level u) <= money s ->
  (0 <= skillLevel (skills s) "click_power_boost" < 10)%Z ->
  (skillLevel (skills s) "click_power_boost" + 1 <= skillPoints s)%Z ->
  let L := inject_Z (skillLevel (skills s) "click_power_boost" + 1) in
  let upgraded := buyMoneyUpgrade s "click_power_1" s in
  let upgradedThenSkilled :=
    spendSkillPoint upgraded "click_power_boost" upgraded in
  let skilled := spendSkillPoint s "click_power_boost" s in
  let skilledThenUpgraded := buyMoneyUpgrade skilled "click_power_1" skilled in
  clickMultiplier (upgrades upgraded)
    == clickMultiplier (upgrades s) * (11#10) /\
  clickMultiplier (upgrades upgradedThenSkilled) == 1 + (5#100) * L /\
  clickMultiplier (upgrades skilledThenUpgraded)
    == (1 + (5#100) * L) * (11#10) /\
  ~ clickMultiplier (upgrades upgradedThenSkilled)
    == clickMultiplier (upgrades skilledThenUpgraded) /\
  money upgradedThenSkilled = money skilledThenUpgraded.
Proof.
  intros Hfind Heffect Hpay [H0 H2] H3 L upgraded upgradedThenSkilled skilled
    skilledThenUpgraded.
  assert (H1 : (0 < skillPoints s)%Z) by lia.
  assert (Hacc : Qltb (money s) (u_cost u * Qpower 2 (u_level u)) = false)
    by (apply Qltb_ge; exact Hpay).
  assert (Hup : upgrades upgraded = u_effect u (upgrades s) /\
                money upgraded = money s - u_cost u * Qpower 2 (u_level u) /\
                skills upgraded = skills s /\
                skillPoints upgraded = skillPoints s).
  { unfold upgraded, buyMoneyUpgrade. rewrite Hfind, Hacc. cbn. auto. }
  destruct Hup as (Hu1 & Hu2 & Hu3 & Hu4).
  destruct (spendSkillPoint_click upgraded) as (Ha1 & Ha2 & _);
    [rewrite Hu4; exact H1 | rewrite Hu3; exact H2
    | rewrite Hu3, Hu4; exact H3 |].
  fold upgradedThenSkilled in Ha1, Ha2. rewrite Hu3 in Ha1. fold L in Ha1.
  destruct (spendSkillPoint_click s H1 H2 H3) as (Hb1 & Hb2 & Hb3).
  fold skilled in Hb1, Hb2, Hb3. fold L in Hb1.
  assert (Hsu : upgrades skilledThenUpgraded = u_effect u (upgrades skilled) /\
                money skilledThenUpgraded
                = money skilled - u_cost u * Qpower 2 (u_level u)).
  { unfold skilledThenUpgraded, buyMoneyUpgrade.
    rewrite Hb3, Hfind, Hb2, Hacc. cbn. auto. }
  destruct Hsu as (Hc1 & Hc2).
  assert (HL : 0 <= L).
  { unfold L. apply inject_Z_nonneg. lia. }
  split; [rewrite Hu1; apply Heffect |].
  split; [exact Ha1 |].
  assert (Hba : clickMultiplier (upgrades skilledThenUpgraded)
                == (1 + (5#100) * L) * (11#10)).
  { rewrite Hc1, Heffect, Hb1. reflexivity. }
  split; [exact Hba |]. split.
  - rewrite Ha1, Hba. intros Heq. lra.
  - rewrite Ha2, Hu2, Hc2, Hb2. reflexivity.
Qed.

Lemma skill_purchase_overwrites_upgrade_witness :
  exists u,
    List.find (fun u => String.eqb (u_id u) "click_power_1")
      (moneyUpgrades fundedState) = Some u /\
    clickMultiplier
      (upgrades
         (spendSkillPoint
            (buyMoneyUpgrade fundedState "click_power_1" fundedState)
            "click_power_boost"
            (buyMoneyUpgrade fundedState "click_power_1" fundedState)))
    == 1 + (5#100) * 1.
Proof.
  eexists. split; [reflexivity |].
  assert (Hf : List.find (fun u => String.eqb (u_id u) "click_power_1")
                 (moneyUpgrades fundedState)
               = Some (mkMoneyUpgrade "click_power_1" 100
                         (fun u => mkUpgrades (clickMultiplier u * (11#10))
                                     (autoMultiplier u) (efficiencyBonus u)
                                     (sellPriceMultiplier u)
                                     (xpGainMultiplier u)
                                     (rareResourceChance u)) 0))
    by reflexivity.
  assert (He : forall b,
             clickMultiplier
               (u_effect
                  (mkMoneyUpgrade "click_power_1" 100
                     (fun u => mkUpgrades (clickMultiplier u * (11#10))
                                 (autoMultiplier u) (efficiencyBonus u)
                                 (sellPriceMultiplier u)
                                 (xpGainMultiplier u)
                                 (rareResourceChance u)) 0) b)
             == clickMultiplier b * (11#10)) by (intros b; reflexivity).
  assert (Hp : u_cost
                 (mkMoneyUpgrade "click_power_1" 100
                    (fun u => mkUpgrades (clickMultiplier u * (11#10))
                                (autoMultiplier u) (efficiencyBonus u)
                                (sellPriceMultiplier u)
                                (xpGainMultiplier u)
                                (rareResourceChance u)) 0)
               * Qpower 2 0 <= money fundedState)
    by (vm_compute; discriminate).
  assert (Hl : (0 <= skillLevel (skills fundedState) "click_power_boost"
                < 10)%Z) by (vm_compute; split; [discriminate | reflexivity]).
  assert (Hs : (skillLevel (skills fundedState) "click_power_boost" + 1
                <= skillPoints fundedState)%Z) by (vm_compute; discriminate).
  exact (proj1 (proj2 (skill_purchase_overwrites_upgrade fundedState _
                         Hf He Hp Hl Hs))).
Defined.

(** ** The first version: paying with resources *)

(** X19.  [buyEquipment] of the version that pays with resources, for
    non-negative stocks and a non-negative cost: the state is unchanged
    exactly when the total value is below the cost; otherwise the total
    value drops by exactly the cost, no stock grows or becomes negative,
    and a cheaper resource is only touched once every dearer one is used
    up (diamond before gold before iron before coal). *)
Theorem barter_pays_dearest_first (s : Barter.GameState) (id : string)
    (e : Equipment) :
  findEquipment id (Barter.equipment s) = Some e ->
  0 <= Barter.coal s -> 0 <= Barter.iron s ->
  0 <= Barter.gold s -> 0 <= Barter.diamond s ->
  0 <= equipmentCost e ->
  let s' := Barter.buyEquipment s id s in
  (s' = s <-> Barter.getTotalValue s < equipmentCost e) /\
  (equipmentCost e <= Barter.getTotalValue s ->
   Barter.getTotalValue s' == Barter.getTotalValue s - equipmentCost e /\
   0 <= Barter.diamond s' <= Barter.diamond s /\
   0 <= Barter.gold s' <= Barter.gold s /\
   0 <= Barter.iron s' <= Barter.iron s /\
   0 <= Barter.coal s' <= Barter.coal s /\
   (Barter.gold s' < Barter.gold s -> Barter.diamond s' == 0) /\
   (Barter.iron s' < Barter.iron s ->
    Barter.gold s' == 0 /\ Barter.diamond s' == 0) /\
   (Barter.coal s' < Barter.coal s ->
    Barter.iron s' == 0 /\ Barter.gold s' == 0 /\ Barter.diamond s' == 0)).
Proof.
  intros Hfind Hc Hi Hg Hd Hcost s'. subst s'.
  unfold Barter.buyEquipment. rewrite Hfind.
  fold (Barter.getTotalValue s). split.
  - destruct (Qltb (Barter.getTotalValue s) (equipmentCost e)) eqn:Hpay.
    + apply Qltb_lt in Hpay. tauto.
    + apply Qltb_ge in Hpay. split; [| intros Hlt; lra].
      intros Heq. exfalso. apply (f_equal Barter.equipment) in Heq.
      cbn in Heq. exact (addOwned_changes_list _ _ _ Hfind Heq).
  - intros Hpay.
    assert (Hacc : Qltb (Barter.getTotalValue s) (equipmentCost e) = false)
      by (apply Qltb_ge; exact Hpay).
    rewrite Hacc. unfold Barter.getTotalValue in *.
    cbn [Barter.coal Barter.iron Barter.gold Barter.diamond].
    set (cost := equipmentCost e) in *.
    set (dc := Qmin (cost / 100) (Barter.diamond s)).
    set (gc := Qmin ((cost - dc * 100) / 25) (Barter.gold s)).
    set (ic := Qmin ((cost - dc * 100 - gc * 25) / 5) (Barter.iron s)).
    assert (Hdc : (cost * (1#100) < Barter.diamond s /\ dc == cost * (1#100))
                  \/ (Barter.diamond s <= cost * (1#100)
                      /\ dc == Barter.diamond s)).
    { destruct (Q.min_spec (cost / 100) (Barter.diamond s)) as [H | H];
        [left | right]; exact H. }
    assert (Hgc : ((cost - dc * 100) * (1#25) < Barter.gold s
                   /\ gc == (cost - dc * 100) * (1#25))
                  \/ (Barter.gold s <= (cost - dc * 100) * (1#25)
                      /\ gc == Barter.gold s)).
    { destruct (Q.min_spec ((cost - dc * 100) / 25) (Barter.gold s))
        as [H | H]; [left | right]; exact H. }
    assert (Hic : ((cost - dc * 100 - gc * 25) * (1#5) < Barter.iron s
                   /\ ic == (cost - dc * 100 - gc * 25) * (1#5))
                  \/ (Barter.iron s <= (cost - dc * 100 - gc * 25) * (1#5)
                      /\ ic == Barter.iron s)).
    { destruct (Q.min_spec ((cost - dc * 100 - gc * 25) / 5) (Barter.iron s))
        as [H | H]; [left | right]; exact H. }
    clearbody dc gc ic.
    destruct Hdc as [[Hd1 Hd2] | [Hd1 Hd2]];
      destruct Hgc as [[Hg1 Hg2] | [Hg1 Hg2]];
      destruct Hic as [[Hi1 Hi2] | [Hi1 Hi2]];
      repeat split; intros; lra.
Qed.

Lemma barter_pays_dearest_first_witness :
  findEquipment "steel_pickaxe" (Barter.equipment Barter.stockedState)
    = Some (mkEquipment "steel_pickaxe" pickaxe 5 200 0) /\
  0 <= Barter.coal Barter.stockedState /\
  equipmentCost (mkEquipment "steel_pickaxe" pickaxe 5 200 0)
    <= Barter.getTotalValue Barter.stockedState /\
  Barter.getTotalValue
    (Barter.buyEquipment Barter.stockedState "steel_pickaxe"
       Barter.stockedState)
  == Barter.getTotalValue Barter.stockedState - 200.
Proof.
  assert (Hf : findEquipment "steel_pickaxe"
                 (Barter.equipment Barter.stockedState)
               = Some (mkEquipment "steel_pickaxe" pickaxe 5 200 0))
    by reflexivity.
  assert (Hc : 0 <= Barter.coal Barter.stockedState)
    by (vm_compute; discriminate).
  assert (Hi : 0 <= Barter.iron Barter.stockedState)
    by (vm_compute; discriminate).
  assert (Hg : 0 <= Barter.gold Barter.stockedState)
    by (vm_compute; discriminate).
  assert (Hd : 0 <= Barter.diamond Barter.stockedState)
    by (vm_compute; discriminate).
  assert (H0 : 0 <= equipmentCost (mkEquipment "steel_pickaxe" pickaxe 5 200 0))
    by (vm_compute; discriminate).
  assert (Hp : equipmentCost (mkEquipment "steel_pickaxe" pickaxe 5 200 0)
               <= Barter.getTotalValue Barter.stockedState)
    by (vm_compute; discriminate).
  split; [exact Hf |]. split; [exact Hc |]. split; [exact Hp |].
  exact (proj1 (proj2 (barter_pays_dearest_first Barter.stockedState
                         "steel_pickaxe" _ Hf Hc Hi Hg Hd H0) Hp)).
Defined.

(** ** Buttons and handlers *)

Lemma find_by_key {A} (key : A -> string) (l : list A) (x : A) :
  List.NoDup (List.map key l) -> In x l ->
  List.find (fun y => String.eqb (key y) (key x)) l = Some x.
Proof.
  induction l as [| a l IH]; intros Hnd Hin; [contradiction |].
  cbn in *. inversion Hnd as [| ? ? Hfresh Hrest]; subst.
  destruct Hin as [-> | Hin].
  - rewrite String.eqb_refl. reflexivity.
  - destruct (String.eqb_spec (key a) (key x)) as [Heq | _].
    + exfalso. apply Hfresh. rewrite Heq. apply List.in_map. exact Hin.
    + apply IH; assumption.
Qed.

(** X20.  Buttons and handlers agree in the two shops and half agree in
    the skill tree.  With distinct identifiers in the state's lists, the
    Buy button of an item is enabled exactly when [buyEquipment] for it
    changes the state, and likewise the Upgrade button and
    [buyMoneyUpgrade].  An enabled skill button, for a skill whose level is
    not negative, always leads to an accepted [spendSkillPoint]. *)
Theorem enabled_buttons_act (s : GameState) :
  (List.NoDup (List.map e_id (equipment s)) ->
   forall e, In e (equipment s) ->
     (canAffordEquipment s e = true <-> buyEquipment s (e_id e) s <> s)) /\
  (List.NoDup (List.map u_id (moneyUpgrades s)) ->
   forall u, In u (moneyUpgrades s) ->
     (canAffordUpgrade s u = true <-> buyMoneyUpgrade s (u_id u) s <> s)) /\
  (forall skill, In skill SKILL_TREE ->
     (0 <= skillLevel (skills s) (s_id skill))%Z ->
     canAffordSkill s skill = true ->
     spendSkillPoint s (s_id skill) s <> s).
Proof.
  split; [| split].
  - intros Hnd e Hin.
    pose proof (find_by_key e_id _ e Hnd Hin) as Hfind.
    fold (findEquipment (e_id e) (equipment s)) in Hfind.
    unfold canAffordEquipment. rewrite Qle_bool_iff. split.
    + intros Hpay Heq.
      assert (Hacc : Qltb (money s) (equipmentCost e) = false)
        by (apply Qltb_ge; exact Hpay).
      destruct (buyEquipment_accepted s s _ e Hfind Hacc) as [_ Hequip].
      rewrite Heq in Hequip.
      exact (addOwned_changes_list _ _ _ Hfind (eq_sym Hequip)).
    + intros Hne. destruct (Qlt_le_dec (money s) (equipmentCost e))
        as [Hlt | Hle]; [| exact Hle].
      exfalso. apply Hne. apply Qltb_lt in Hlt.
      exact (buyEquipment_rejected s s _ e Hfind Hlt).
  - intros Hnd u Hin.
    pose proof (find_by_key u_id _ u Hnd Hin) as Hfind.
    unfold canAffordUpgrade. rewrite Qle_bool_iff.
    unfold buyMoneyUpgrade. rewrite Hfind. split.
    + intros Hpay Heq.
      assert (Hacc : Qltb (money s) (u_cost u * Qpower 2 (u_level u)) = false)
        by (apply Qltb_ge; exact Hpay).
      rewrite Hacc in Heq. apply (f_equal moneyUpgrades) in Heq. cbn in Heq.
      exact (addLevel_changes_list _ _ _ Hfind Heq).
    + intros Hne.
      destruct (Qlt_le_dec (money s) (u_cost u * Qpower 2 (u_level u)))
        as [Hlt | Hle]; [| exact Hle].
      exfalso. apply Hne. apply Qltb_lt in Hlt. rewrite Hlt. reflexivity.
  - intros skill Hin Hlvl Hgate.
    exact (spendSkillPoint_accepts_when_gate_open s skill Hin Hlvl Hgate).
Qed.

Lemma enabled_buttons_act_witness :
  List.NoDup (List.map e_id (equipment richState)) /\
  In (mkEquipment "basic_pickaxe" pickaxe 1 50 0) (equipment richState) /\
  canAffordEquipment richState (mkEquipment "basic_pickaxe" pickaxe 1 50 0)
    = true /\
  buyEquipment richState "basic_pickaxe" richState <> richState.
Proof.
  assert (Hnd : List.NoDup (List.map e_id (equipment richState))).
  { cbn. repeat (constructor; [cbn; intuition discriminate |]). constructor. }
  assert (Hin : In (mkEquipment "basic_pickaxe" pickaxe 1 50 0)
                  (equipment richState)) by (cbn; tauto).
  assert (Hgo : canAffordEquipment richState
                  (mkEquipment "basic_pickaxe" pickaxe 1 50 0) = true)
    by reflexivity.
  split; [exact Hnd |]. split; [exact Hin |]. split; [exact Hgo |].
  exact (proj1 (proj1 (enabled_buttons_act richState) Hnd _ Hin) Hgo).
Defined.
